(** * Library smart checkout: lending, reservation and staff workflows

    A shallow embedding of [library/models.py] and [library/views.py].

    - Model classes become records, one module per class, with the
      class constants ([STATUS_ACTIVE], [ROLE_STAFF], ...) as constructors.
    - A table is a finite map from primary key to row; a model instance
      in memory is a row together with its primary key.
    - A view is a function from a request and its URL argument to a
      computation over the world (database, clock, flash messages) that
      either returns a response or raises. Writes are committed as they
      are issued, so a view that raises keeps the writes made before. *)

From stdpp Require Import base gmap strings list sorting pretty.
From Stdlib Require Import ZArith Lia.

Local Open Scope Z_scope.

(** ** Domain model ([models.py]) *)

Module User.
Inductive Role := ROLE_PATRON | ROLE_STAFF | ROLE_ADMIN.

#[global] Instance Role_eq_dec : EqDecision Role.
Proof. solve_decision. Defined.

Record t := Build {
  username : string;
  role : Role;
  is_active : bool
}.

Definition is_patron (self : t) : bool := bool_decide (role self = ROLE_PATRON).
Definition is_staff_user (self : t) : bool := bool_decide (role self = ROLE_STAFF).
Definition is_admin_user (self : t) : bool := bool_decide (role self = ROLE_ADMIN).

Definition set_role (r : Role) (self : t) : t :=
  {| username := username self; role := r; is_active := is_active self |}.
Definition set_is_active (b : bool) (self : t) : t :=
  {| username := username self; role := role self; is_active := b |}.
End User.

Module Resource.
Inductive Kind := TYPE_BOOK | TYPE_MEDIA | TYPE_DIGITAL.
Inductive Status := STATUS_AVAILABLE | STATUS_CHECKED_OUT | STATUS_RESERVED | STATUS_LOST.

#[global] Instance Status_eq_dec : EqDecision Status.
Proof. solve_decision. Defined.

Record t := Build {
  title : string;
  author : string;
  resource_type : Kind;
  rfid_tag : option string;
  barcode : option string;
  status : Status;
  created_at : Z
}.

Definition set_status (s : Status) (self : t) : t :=
  {| title := title self; author := author self;
     resource_type := resource_type self; rfid_tag := rfid_tag self;
     barcode := barcode self; status := s; created_at := created_at self |}.
End Resource.

Module Checkout.
Inductive Status := STATUS_ACTIVE | STATUS_RETURNED | STATUS_LOST.

#[global] Instance Status_eq_dec : EqDecision Status.
Proof. solve_decision. Defined.

(** [patron] and [resource] hold the primary keys of the rows referred to. *)
Record t := Build {
  patron : nat;
  resource : nat;
  checkout_date : Z;
  due_date : Z;
  status : Status
}.

Definition set_status (s : Status) (self : t) : t :=
  {| patron := patron self; resource := resource self;
     checkout_date := checkout_date self; due_date := due_date self; status := s |}.
End Checkout.

Module Return.
(** [fine_amount] counts dollars: the views only ever pass [d * 1.0]
    for a whole number [d] of days, and the field keeps or rounds it to
    a whole number. *)
Record t := Build {
  checkout : nat;
  returned_at : Z;
  fine_amount : Z
}.
End Return.

Module Reservation.
Inductive Status := STATUS_PENDING | STATUS_NOTIFIED | STATUS_CANCELLED | STATUS_EXPIRED.

#[global] Instance Status_eq_dec : EqDecision Status.
Proof. solve_decision. Defined.

Record t := Build {
  patron : nat;
  resource : nat;
  created_at : Z;
  status : Status;
  hold_until : option Z
}.
End Reservation.

Module Notification.
Inductive Kind := TYPE_OVERDUE | TYPE_RESERVATION_AVAILABLE | TYPE_NEW_RESOURCE | TYPE_EVENT.

Record t := Build {
  user : nat;
  notification_type : Kind;
  message : string;
  created_at : Z;
  is_read : bool
}.
End Notification.

Module Report.
Inductive Kind := TYPE_POPULAR_RESOURCES | TYPE_FREQUENT_PATRONS | TYPE_INVENTORY_TRENDS.

(** [data] is the JSON payload: a list of [{title, checkout_count}]. *)
Record t := Build {
  report_type : Kind;
  generated_at : Z;
  data : list (string * nat)
}.
End Report.

(** ** The persistent store *)

Record Database := {
  users : gmap nat User.t;
  resources : gmap nat Resource.t;
  checkouts : gmap nat Checkout.t;
  returns : gmap nat Return.t;
  reservations : gmap nat Reservation.t;
  notifications : gmap nat Notification.t;
  reports : gmap nat Report.t
}.

Definition with_users (f : gmap nat User.t → gmap nat User.t) (d : Database) : Database :=
  {| users := f (users d); resources := resources d; checkouts := checkouts d;
     returns := returns d; reservations := reservations d;
     notifications := notifications d; reports := reports d |}.
Definition with_resources (f : gmap nat Resource.t → gmap nat Resource.t) (d : Database) : Database :=
  {| users := users d; resources := f (resources d); checkouts := checkouts d;
     returns := returns d; reservations := reservations d;
     notifications := notifications d; reports := reports d |}.
Definition with_checkouts (f : gmap nat Checkout.t → gmap nat Checkout.t) (d : Database) : Database :=
  {| users := users d; resources := resources d; checkouts := f (checkouts d);
     returns := returns d; reservations := reservations d;
     notifications := notifications d; reports := reports d |}.
Definition with_returns (f : gmap nat Return.t → gmap nat Return.t) (d : Database) : Database :=
  {| users := users d; resources := resources d; checkouts := checkouts d;
     returns := f (returns d); reservations := reservations d;
     notifications := notifications d; reports := reports d |}.
Definition with_reservations (f : gmap nat Reservation.t → gmap nat Reservation.t) (d : Database) : Database :=
  {| users := users d; resources := resources d; checkouts := checkouts d;
     returns := returns d; reservations := f (reservations d);
     notifications := notifications d; reports := reports d |}.
Definition with_notifications (f : gmap nat Notification.t → gmap nat Notification.t) (d : Database) : Database :=
  {| users := users d; resources := resources d; checkouts := checkouts d;
     returns := returns d; reservations := reservations d;
     notifications := f (notifications d); reports := reports d |}.
Definition with_reports (f : gmap nat Report.t → gmap nat Report.t) (d : Database) : Database :=
  {| users := users d; resources := resources d; checkouts := checkouts d;
     returns := returns d; reservations := reservations d;
     notifications := notifications d; reports := f (reports d) |}.

(** A fresh primary key: one more than the largest key of the table. *)
Definition next_pk {A} (tbl : gmap nat A) : nat :=
  S (max_list (fst <$> map_to_list tbl)).

(** A model instance in memory: the row and the key it is stored under. *)
Record Instance (A : Type) := Obj { pk : nat; row : A }.
Arguments Obj {A} _ _.
Arguments pk {A} _.
Arguments row {A} _.

(** A manager ([Model.objects]): how to read and replace one table. *)
Record Manager (A : Type) := {
  rows : Database → gmap nat A;
  with_rows : (gmap nat A → gmap nat A) → Database → Database
}.
Arguments rows {A} _ _.
Arguments with_rows {A} _ _ _.

Definition User_objects : Manager User.t := {| rows := users; with_rows := with_users |}.
Definition Resource_objects : Manager Resource.t := {| rows := resources; with_rows := with_resources |}.
Definition Checkout_objects : Manager Checkout.t := {| rows := checkouts; with_rows := with_checkouts |}.
Definition Return_objects : Manager Return.t := {| rows := returns; with_rows := with_returns |}.
Definition Reservation_objects : Manager Reservation.t :=
  {| rows := reservations; with_rows := with_reservations |}.
Definition Notification_objects : Manager Notification.t :=
  {| rows := notifications; with_rows := with_notifications |}.
Definition Report_objects : Manager Report.t := {| rows := reports; with_rows := with_reports |}.

(** ** The world of a request

    Times are microseconds since the epoch. [clock] is the last reading
    of [timezone.now()]; [ticks] lists by how much the wall clock moves
    before each of the coming readings: forward, not at all, or back
    when the clock is set back (it stands still once the list is used
    up). [flash] is the message store of [django.contrib.messages],
    oldest first. *)

Inductive Severity := success | error | info.

Record World := {
  db : Database;
  clock : Z;
  ticks : list Z;
  flash : list (Severity * string)
}.

Definition with_db (f : Database → Database) (w : World) : World :=
  {| db := f (db w); clock := clock w; ticks := ticks w; flash := flash w |}.

Inductive Exception :=
| NameError (name : string)
| AttributeError
| Http404
| DoesNotExist
| IntegrityError.

Inductive Outcome (A : Type) :=
| Returned (a : A)
| Raised (e : Exception).
Arguments Returned {A} _.
Arguments Raised {A} _.

Definition M (A : Type) : Type := World → Outcome A * World.

Definition ret {A} (a : A) : M A := λ w, (Returned a, w).
Definition raise {A} (e : Exception) : M A := λ w, (Raised e, w).
Definition bind {A B} (c : M A) (k : A → M B) : M B :=
  λ w, match c w with
       | (Returned a, w') => k a w'
       | (Raised e, w') => (Raised e, w')
       end.

Notation "x <- c1 ;; c2" := (bind c1 (λ x, c2))
  (at level 100, c1 at next level, right associativity).
Notation "c1 ;; c2" := (bind c1 (λ _, c2))
  (at level 100, right associativity).

(** [timezone.now()] *)
Definition timezone_now : M Z := λ w,
  let t := clock w + hd 0 (ticks w) in
  (Returned t, {| db := db w; clock := t; ticks := tl (ticks w); flash := flash w |}).

(** [messages.success], [messages.error], [messages.info] *)
Definition messages_add (level : Severity) (text : string) : M () := λ w,
  (Returned (), {| db := db w; clock := clock w; ticks := ticks w;
                   flash := flash w ++ [(level, text)] |}).

(** ** Queries *)

(** [get_object_or_404(Model, pk=k, ...)]: the row under [k] if it also
    meets the other lookups, else [Http404]. *)
Definition get_object_or_404 {A} (objects : Manager A) (k : nat) (lookups : A → bool)
  : M (Instance A) := λ w,
  match rows objects (db w) !! k with
  | Some r => if lookups r then (Returned (Obj k r), w) else (Raised Http404, w)
  | None => (Raised Http404, w)
  end.

(** Following a foreign key ([checkout.resource]): the row referred to,
    [DoesNotExist] if it is gone. *)
Definition related {A} (objects : Manager A) (k : nat) : M (Instance A) := λ w,
  match rows objects (db w) !! k with
  | Some r => (Returned (Obj k r), w)
  | None => (Raised DoesNotExist, w)
  end.

(** [Model.objects.filter(...)], as the map of the rows that match. *)
Definition objects_filter {A} (objects : Manager A) (lookups : A → bool) (d : Database)
  : gmap nat A :=
  filter (λ kr, lookups kr.2 = true) (rows objects d).

(** [Model.objects.filter(...).count()] *)
Definition filter_count {A} (objects : Manager A) (lookups : A → bool) : M nat := λ w,
  (Returned (size (objects_filter objects lookups (db w))), w).

(** The [INSERT] behind [Model.objects.create(...)]. *)
Definition insert {A} (objects : Manager A) (r : A) : M (Instance A) := λ w,
  let k := next_pk (rows objects (db w)) in
  (Returned (Obj k r), with_db (with_rows objects (<[k := r]>)) w).

(** [instance.save()] of an instance that was loaded from the table. *)
Definition save {A} (objects : Manager A) (o : Instance A) : M () := λ w,
  (Returned (), with_db (with_rows objects (<[pk o := row o]>)) w).

(** ** Requests, responses and the role gates ([views.py], lines 10-30) *)

(** [user] is [request.user]; [None] is the anonymous user. *)
Record HttpRequest := { user : option (Instance User.t) }.

Inductive HttpResponse :=
| redirect (to : string) (kwarg : option nat)
| redirect_to_login.

Definition View (A : Type) : Type := HttpRequest → A → M HttpResponse.

Definition is_authenticated (u : option (Instance User.t)) : bool :=
  match u with Some _ => true | None => false end.

Definition login_required {A} (view_func : View A) : View A := λ request args,
  if is_authenticated (user request) then view_func request args
  else ret redirect_to_login.

Definition user_passes_test {A} (test_func : option (Instance User.t) → bool)
    (view_func : View A) : View A := λ request args,
  if test_func (user request) then view_func request args
  else ret redirect_to_login.

(** [lambda u: u.is_authenticated and u.is_staff_user()] *)
Definition staff_required {A} (view_func : View A) : View A :=
  login_required
    (user_passes_test
       (λ u, match u with
             | Some p => User.is_staff_user (row p)
             | None => false
             end) view_func).

(** [lambda u: u.is_authenticated and u.is_admin_user()] *)
Definition admin_required {A} (view_func : View A) : View A :=
  login_required
    (user_passes_test
       (λ u, match u with
             | Some p => User.is_admin_user (row p)
             | None => false
             end) view_func).

(** [request.user] used as a [User]: the anonymous user has none of the
    model's attributes. *)
Definition request_user (request : HttpRequest) : M (Instance User.t) :=
  match user request with
  | Some p => ret p
  | None => raise AttributeError
  end.

(** ** Business logic helpers ([views.py], lines 33-54) *)

Definition MAX_ACTIVE_RESERVATIONS_PER_PATRON : nat := 10.

(** The names bound at module level of [views.py]: its imports (lines
    1-7) and its top-level definitions. *)
Definition views_globals : list string :=
  [ "messages"; "login_required"; "user_passes_test"; "render";
    "get_object_or_404"; "redirect"; "timezone"; "Count";
    "Resource"; "Checkout"; "Return"; "Reservation"; "Notification"; "User"; "Report";
    "staff_required"; "admin_required"; "MAX_ACTIVE_RESERVATIONS_PER_PATRON";
    "calculate_due_date"; "calculate_overdue_fine"; "create_notification";
    "patron_dashboard"; "resource_list"; "resource_detail"; "checkout_resource";
    "return_resource"; "reserve_resource"; "staff_dashboard"; "staff_process_return";
    "admin_staff_list"; "admin_promote_to_staff"; "admin_deactivate_staff";
    "generate_popular_resources_report" ].

(** Reading a global name that is not a builtin. *)
Definition load_global (globals : list string) (name : string) : M () :=
  if bool_decide (name ∈ globals) then ret () else raise (NameError name).

Definition microseconds_per_day : Z := 86400 * 1000000.

(** [datetime.timedelta(days=n)] and the [.days] of a difference of two
    datetimes (a [timedelta] is normalised with [0 <= seconds < 86400],
    so [.days] is the floor). *)
Definition timedelta (days : Z) : Z := days * microseconds_per_day.
Definition timedelta_days (delta : Z) : Z := delta / microseconds_per_day.

(** [timezone.now() + timedelta(days=14)]: the left operand is evaluated
    first, then the name [timedelta] is looked up in the module. *)
Definition calculate_due_date (globals : list string) : M Z :=
  now <- timezone_now ;;
  load_global globals "timedelta" ;;
  ret (now + timedelta 14).

(** [Checkout.is_overdue] ([models.py], lines 82-83); [and] does not
    read the clock when the status is not [ACTIVE]. *)
Definition is_overdue (self : Checkout.t) : M bool :=
  if bool_decide (Checkout.status self = Checkout.STATUS_ACTIVE) then
    now <- timezone_now ;;
    ret (bool_decide (now > Checkout.due_date self))
  else ret false.

Definition calculate_overdue_fine (checkout : Checkout.t) : M Z :=
  overdue <- is_overdue checkout ;;
  if negb overdue then ret 0
  else
    now <- timezone_now ;;
    let days_overdue := timedelta_days (now - Checkout.due_date checkout) in
    ret (Z.max 0 days_overdue * 1).

(** [Notification.objects.create(...)]; [created_at] defaults to
    [timezone.now], [is_read] to [False]. *)
Definition create_notification (user : Instance User.t) (ntype : Notification.Kind)
    (message : string) : M () :=
  created_at <- timezone_now ;;
  insert Notification_objects
    {| Notification.user := pk user; Notification.notification_type := ntype;
       Notification.message := message; Notification.created_at := created_at;
       Notification.is_read := false |} ;;
  ret ().

(** [f"{x:.2f}"] of a whole amount. *)
Definition format_2f (x : Z) : string := pretty x +:+ ".00".

(** An attribute assignment on an instance in memory. *)
Definition assign {A} (f : A → A) (o : Instance A) : Instance A := Obj (pk o) (f (row o)).

(** [Checkout.objects.create(patron=, resource=, due_date=)];
    [checkout_date] defaults to [timezone.now], [status] to [ACTIVE]. *)
Definition Checkout_objects_create (patron : Instance User.t) (resource : Instance Resource.t)
    (due_date : Z) : M (Instance Checkout.t) :=
  checkout_date <- timezone_now ;;
  insert Checkout_objects
    {| Checkout.patron := pk patron; Checkout.resource := pk resource;
       Checkout.checkout_date := checkout_date; Checkout.due_date := due_date;
       Checkout.status := Checkout.STATUS_ACTIVE |}.

(** [n] rounded to a multiple of [unit], a half going to the even
    neighbour ([ROUND_HALF_EVEN], the rounding of a [decimal.Context]). *)
Definition round_half_even (n unit : Z) : Z :=
  let q := n / unit in
  let r := n mod unit in
  if 2 * r <? unit then q * unit
  else if unit <? 2 * r then (q + 1) * unit
  else if Z.even q then q * unit
  else (q + 1) * unit.

(** The power of ten that is the last of the [digits] leading digits
    of [n]: 1 when [n] has no more than [digits] digits. *)
Fixpoint significant_unit (fuel : nat) (digits n : Z) : Z :=
  match fuel with
  | O => 1
  | S fuel => if n <? 10 ^ digits then 1 else 10 * significant_unit fuel digits (n / 10)
  end.

(** What a [DecimalField(max_digits=...)] makes of a whole float when
    the row is saved ([DecimalField.to_python]): the float is read
    exactly and rounded to [max_digits] significant digits. The field
    checks neither [decimal_places] nor its validators on save, and
    whether the store itself refuses an amount wider than the column
    is the backend's affair and not part of this model. *)
Definition DecimalField_to_python (max_digits value : Z) : Z :=
  round_half_even value (significant_unit (Z.to_nat (Z.log2 value)) max_digits value).

(** [Return.objects.create(checkout=, fine_amount=)]; [returned_at]
    defaults to [timezone.now]. [checkout] is a one-to-one field: the
    insert is refused when the checkout already has a return record.
    [fine_amount] is a [DecimalField(max_digits=6, decimal_places=2)]. *)
Definition Return_objects_create (checkout : Instance Checkout.t) (fine_amount : Z)
    : M (Instance Return.t) :=
  returned_at <- timezone_now ;;
  taken <- filter_count Return_objects (λ r, bool_decide (Return.checkout r = pk checkout)) ;;
  if bool_decide (taken = 0%nat) then
    insert Return_objects
      {| Return.checkout := pk checkout; Return.returned_at := returned_at;
         Return.fine_amount := DecimalField_to_python 6 fine_amount |}
  else raise IntegrityError.

(** [Reservation.objects.create(patron=, resource=)]; [created_at]
    defaults to [timezone.now], [status] to [PENDING], [hold_until] to
    null. *)
Definition Reservation_objects_create (patron : Instance User.t)
    (resource : Instance Resource.t) : M (Instance Reservation.t) :=
  created_at <- timezone_now ;;
  insert Reservation_objects
    {| Reservation.patron := pk patron; Reservation.resource := pk resource;
       Reservation.created_at := created_at;
       Reservation.status := Reservation.STATUS_PENDING;
       Reservation.hold_until := None |}.

(** [Report.objects.create(report_type=, data=)]; [generated_at]
    defaults to [timezone.now]. *)
Definition Report_objects_create (report_type : Report.Kind) (data : list (string * nat))
    : M (Instance Report.t) :=
  generated_at <- timezone_now ;;
  insert Report_objects
    {| Report.report_type := report_type; Report.generated_at := generated_at;
       Report.data := data |}.

(** ** Patron views ([views.py], lines 104-209)

    [strftime fmt t] renders the datetime [t]; it is the one part of
    the datetime library the views use that is left open. *)

Definition checkout_resource (globals : list string) (strftime : string → Z → string)
    : View nat :=
  login_required (λ request pk_,
    patron <- request_user request ;;
    if negb (User.is_patron (row patron)) then
      messages_add error "Only patrons can checkout resources." ;;
      ret (redirect "resource_detail" (Some pk_))
    else
    resource <- get_object_or_404 Resource_objects pk_ (λ _, true) ;;
    if bool_decide (Resource.status (row resource) ≠ Resource.STATUS_AVAILABLE) then
      messages_add error "Resource is not available for checkout." ;;
      ret (redirect "resource_detail" (Some pk_))
    else
    due_date <- calculate_due_date globals ;;
    checkout <- Checkout_objects_create patron resource due_date ;;
    let resource := assign (Resource.set_status Resource.STATUS_CHECKED_OUT) resource in
    save Resource_objects resource ;;
    create_notification patron Notification.TYPE_NEW_RESOURCE
      ("You have checked out '" +:+ Resource.title (row resource) +:+ "'. Due on "
         +:+ strftime "%Y-%m-%d" due_date +:+ ".") ;;
    messages_add success ("Checked out '" +:+ Resource.title (row resource) +:+ "'.") ;;
    ret (redirect "patron_dashboard" None)).

Definition return_resource : View nat :=
  login_required (λ request checkout_id,
    patron <- request_user request ;;
    checkout <- get_object_or_404 Checkout_objects checkout_id
                  (λ c, bool_decide (Checkout.patron c = pk patron)) ;;
    if bool_decide (Checkout.status (row checkout) ≠ Checkout.STATUS_ACTIVE) then
      messages_add error "Checkout is not active." ;;
      ret (redirect "patron_dashboard" None)
    else
    fine <- calculate_overdue_fine (row checkout) ;;
    Return_objects_create checkout fine ;;
    let checkout := assign (Checkout.set_status Checkout.STATUS_RETURNED) checkout in
    save Checkout_objects checkout ;;
    resource <- related Resource_objects (Checkout.resource (row checkout)) ;;
    let resource := assign (Resource.set_status Resource.STATUS_AVAILABLE) resource in
    save Resource_objects resource ;;
    (if bool_decide (fine > 0) then
       create_notification patron Notification.TYPE_OVERDUE
         ("Returned '" +:+ Resource.title (row resource)
            +:+ "' with an overdue fine of $" +:+ format_2f fine +:+ ".")
     else
       create_notification patron Notification.TYPE_EVENT
         ("Successfully returned '" +:+ Resource.title (row resource) +:+ "'.")) ;;
    messages_add success
      ("Returned '" +:+ Resource.title (row resource) +:+ "'. Fine: $"
         +:+ format_2f fine +:+ ".") ;;
    ret (redirect "patron_dashboard" None)).

Definition reserve_resource : View nat :=
  login_required (λ request pk_,
    patron <- request_user request ;;
    resource <- get_object_or_404 Resource_objects pk_ (λ _, true) ;;
    active_res_count <-
      filter_count Reservation_objects
        (λ r, bool_decide (Reservation.patron r = pk patron)
              && bool_decide (Reservation.status r = Reservation.STATUS_PENDING)) ;;
    if bool_decide (MAX_ACTIVE_RESERVATIONS_PER_PATRON ≤ active_res_count)%nat then
      messages_add error "Reservation limit reached (max 10)." ;;
      ret (redirect "resource_detail" (Some pk_))
    else
    if bool_decide (Resource.status (row resource) = Resource.STATUS_AVAILABLE) then
      messages_add info "Resource is available. Consider checking it out instead." ;;
      ret (redirect "resource_detail" (Some pk_))
    else
    Reservation_objects_create patron resource ;;
    let resource := assign (Resource.set_status Resource.STATUS_RESERVED) resource in
    save Resource_objects resource ;;
    create_notification patron Notification.TYPE_RESERVATION_AVAILABLE
      ("Reservation placed for '" +:+ Resource.title (row resource)
         +:+ "'. You will be notified when it becomes available.") ;;
    messages_add success ("Reservation placed for '" +:+ Resource.title (row resource) +:+ "'.") ;;
    ret (redirect "patron_dashboard" None)).

(** ** Staff and admin views ([views.py], lines 237-324) *)

Definition staff_process_return : View nat :=
  staff_required (λ request checkout_id,
    checkout <- get_object_or_404 Checkout_objects checkout_id (λ _, true) ;;
    if bool_decide (Checkout.status (row checkout) ≠ Checkout.STATUS_ACTIVE) then
      messages_add error "Checkout is not active." ;;
      ret (redirect "staff_dashboard" None)
    else
    fine <- calculate_overdue_fine (row checkout) ;;
    Return_objects_create checkout fine ;;
    let checkout := assign (Checkout.set_status Checkout.STATUS_RETURNED) checkout in
    save Checkout_objects checkout ;;
    resource <- related Resource_objects (Checkout.resource (row checkout)) ;;
    let resource := assign (Resource.set_status Resource.STATUS_AVAILABLE) resource in
    save Resource_objects resource ;;
    checkout_patron <- related User_objects (Checkout.patron (row checkout)) ;;
    create_notification checkout_patron
      (if bool_decide (fine > 0) then Notification.TYPE_OVERDUE else Notification.TYPE_EVENT)
      ("Return processed by staff for '" +:+ Resource.title (row resource)
         +:+ "'. Fine: $" +:+ format_2f fine +:+ ".") ;;
    messages_add success
      ("Return processed for '" +:+ Resource.title (row resource) +:+ "'. Fine: $"
         +:+ format_2f fine +:+ ".") ;;
    ret (redirect "staff_dashboard" None)).

Definition admin_promote_to_staff : View nat :=
  admin_required (λ request user_id,
    user <- get_object_or_404 User_objects user_id (λ _, true) ;;
    let user := assign (User.set_role User.ROLE_STAFF) user in
    save User_objects user ;;
    messages_add success (User.username (row user) +:+ " promoted to staff.") ;;
    ret (redirect "admin_staff_list" None)).

Definition admin_deactivate_staff : View nat :=
  admin_required (λ request user_id,
    user <- get_object_or_404 User_objects user_id
              (λ u, bool_decide (User.role u = User.ROLE_STAFF)) ;;
    let user := assign (User.set_is_active false) user in
    save User_objects user ;;
    messages_add success (User.username (row user) +:+ " deactivated.") ;;
    ret (redirect "admin_staff_list" None)).

(** [Count("checkouts")] of one resource. *)
Definition checkout_count (d : Database) (resource_pk : nat) : nat :=
  size (filter (λ kc, Checkout.resource kc.2 = resource_pk) (checkouts d)).

(** The order of [order_by("-checkout_count")]. *)
Definition by_count_desc (a b : Resource.t * nat) : Prop := (b.2 ≤ a.2)%nat.

#[global] Instance by_count_desc_dec a b : Decision (by_count_desc a b).
Proof. unfold by_count_desc. apply _. Defined.

(** The order in which the store returns the counted rows: by count,
    largest first, and rows of equal count by ascending id (the order
    in which the grouped rows are produced and which the sort keeps). *)
Definition by_count_desc_then_pk (a b : nat * (Resource.t * nat)) : Prop :=
  (b.2.2 < a.2.2)%nat ∨ (a.2.2 = b.2.2 ∧ (a.1 ≤ b.1)%nat).

#[global] Instance by_count_desc_then_pk_dec a b : Decision (by_count_desc_then_pk a b).
Proof. unfold by_count_desc_then_pk. apply _. Defined.

(** [Resource.objects.annotate(checkout_count=...).order_by("-checkout_count")[:n]] *)
Definition popular_resources (d : Database) (n : nat) : list (Resource.t * nat) :=
  take n
    (snd <$>
       merge_sort by_count_desc_then_pk
         ((λ kr, (kr.1, (kr.2, checkout_count d kr.1))) <$> map_to_list (resources d))).

Definition generate_popular_resources_report : View () :=
  staff_required (λ request _,
    popular <- (λ w, (Returned (popular_resources (db w) 20), w)) ;;
    let data := (λ rc, (Resource.title rc.1, rc.2)) <$> popular in
    report <- Report_objects_create Report.TYPE_POPULAR_RESOURCES data ;;
    messages_add success
      ("Popular Resources report generated (ID: " +:+ pretty (pk report) +:+ ").") ;;
    ret (redirect "staff_dashboard" None)).

(** ** Routing ([urls.py])

    The routes whose views write to the store. *)

Inductive Route :=
| url_checkout_resource (pk_ : nat)
| url_reserve_resource (pk_ : nat)
| url_return_resource (checkout_id : nat)
| url_staff_process_return (checkout_id : nat)
| url_popular_resources_report
| url_admin_promote_to_staff (user_id : nat)
| url_admin_deactivate_staff (user_id : nat).

Definition urlpatterns (globals : list string) (strftime : string → Z → string)
    (route : Route) (request : HttpRequest) : M HttpResponse :=
  match route with
  | url_checkout_resource pk_ => checkout_resource globals strftime request pk_
  | url_reserve_resource pk_ => reserve_resource request pk_
  | url_return_resource checkout_id => return_resource request checkout_id
  | url_staff_process_return checkout_id => staff_process_return request checkout_id
  | url_popular_resources_report => generate_popular_resources_report request ()
  | url_admin_promote_to_staff user_id => admin_promote_to_staff request user_id
  | url_admin_deactivate_staff user_id => admin_deactivate_staff request user_id
  end.

(** ** Vocabulary of the properties *)

(** The lookups of [filter(patron=patron, status=PENDING)]. *)
Definition pending_of (patron_pk : nat) (r : Reservation.t) : bool :=
  bool_decide (Reservation.patron r = patron_pk)
  && bool_decide (Reservation.status r = Reservation.STATUS_PENDING).

Definition pending_count (d : Database) (patron_pk : nat) : nat :=
  size (objects_filter Reservation_objects (pending_of patron_pk) d).

(** The return records of one checkout. *)
Definition return_records (d : Database) (checkout_id : nat) : gmap nat Return.t :=
  objects_filter Return_objects (λ r, bool_decide (Return.checkout r = checkout_id)) d.

(** A request is served at the instant [now] when every reading of the
    clock during it gives [now]. *)
Definition served_at (now : Z) (w : World) : Prop :=
  clock w = now ∧ ticks w = [].

(** The messages a view added to the message store. *)
Definition flashed (before after : World) : list (Severity * string) :=
  drop (length (flash before)) (flash after).

(** A request was turned down: sent to the login page, answered with
    not-found, or answered with an error message. *)
Definition rejected (before : World) (result : Outcome HttpResponse * World) : Prop :=
  result.1 = Returned redirect_to_login
  ∨ result.1 = Raised Http404
  ∨ ∃ text, flashed before result.2 = [(error, text)].

(** Whole days in a span of time, fractions dropped toward zero. *)
Definition whole_days (delta : Z) : Z := delta ÷ microseconds_per_day.

(** At most one [ACTIVE] checkout per resource. *)
Definition at_most_one_active (d : Database) : Prop :=
  ∀ k1 k2 c1 c2,
    checkouts d !! k1 = Some c1 → checkouts d !! k2 = Some c2 →
    Checkout.status c1 = Checkout.STATUS_ACTIVE →
    Checkout.status c2 = Checkout.STATUS_ACTIVE →
    Checkout.resource c1 = Checkout.resource c2 → k1 = k2.

(** No [ACTIVE] checkout is on a resource that the store shows as
    [AVAILABLE]. *)
Definition active_not_available (d : Database) : Prop :=
  ∀ k c r,
    checkouts d !! k = Some c → Checkout.status c = Checkout.STATUS_ACTIVE →
    resources d !! Checkout.resource c = Some r →
    Resource.status r ≠ Resource.STATUS_AVAILABLE.

Definition lending_consistent (d : Database) : Prop :=
  at_most_one_active d ∧ active_not_available d.

(** A store in which nothing is on loan. *)
Definition nothing_on_loan (d : Database) : Prop :=
  ∀ k c, checkouts d !! k = Some c → Checkout.status c ≠ Checkout.STATUS_ACTIVE.

(** The worlds that requests can lead to, one request at a time, from a
    store in which nothing is on loan. Between requests time passes and
    the message store is emptied; the database stays. *)
Inductive reachable (globals : list string) (strftime : string → Z → string)
  : World → Prop :=
| reachable_initial w :
    nothing_on_loan (db w) → reachable globals strftime w
| reachable_request w route request :
    reachable globals strftime w →
    reachable globals strftime (urlpatterns globals strftime route request w).2
| reachable_between w w' :
    reachable globals strftime w → db w' = db w → reachable globals strftime w'.

(** The fine of a return served at the instant [now]: nothing up to the
    due date, then 1 for each whole day past it. *)
Definition fine_at (now : Z) (c : Checkout.t) : Z :=
  if bool_decide (now ≤ Checkout.due_date c) then 0
  else whole_days (now - Checkout.due_date c) * 1.


(** The two return views: self-service and staff-initiated. *)
Definition return_views : list (View nat) := [return_resource; staff_process_return].

(** What a return view does to the store, on every path: nothing, or
    it files one return record for the checkout, marks the checkout
    [RETURNED] and, unless the resource row is gone, marks the resource
    [AVAILABLE]. Users and reservations stay. *)
Definition return_effect (checkout_id : nat) (d d' : Database) : Prop :=
  d' = d
  ∨ ∃ c record,
      checkouts d !! checkout_id = Some c
      ∧ Checkout.status c = Checkout.STATUS_ACTIVE
      ∧ return_records d checkout_id = ∅
      ∧ Return.checkout record = checkout_id
      ∧ returns d' = <[next_pk (returns d) := record]> (returns d)
      ∧ checkouts d'
        = <[checkout_id := Checkout.set_status Checkout.STATUS_RETURNED c]> (checkouts d)
      ∧ (resources d' = resources d
         ∨ ∃ r, resources d !! Checkout.resource c = Some r
              ∧ resources d'
                = <[Checkout.resource c := Resource.set_status Resource.STATUS_AVAILABLE r]>
                    (resources d))
      ∧ reservations d' = reservations d
      ∧ users d' = users d.

(** The reservation that [reserve_resource] inserts. *)
Definition new_reservation (patron_pk resource_pk : nat) (created_at : Z) : Reservation.t :=
  {| Reservation.patron := patron_pk; Reservation.resource := resource_pk;
     Reservation.created_at := created_at;
     Reservation.status := Reservation.STATUS_PENDING;
     Reservation.hold_until := None |}.

(** The message of the cap. *)
Definition cap_message : Severity * string :=
  (error, "Reservation limit reached (max 10).").

(** ** A small library, used for the worked examples *)

Definition alice : Instance User.t :=
  Obj 1 {| User.username := "alice"; User.role := User.ROLE_PATRON; User.is_active := true |}.
Definition bob : Instance User.t :=
  Obj 2 {| User.username := "bob"; User.role := User.ROLE_STAFF; User.is_active := true |}.
Definition carol : Instance User.t :=
  Obj 3 {| User.username := "carol"; User.role := User.ROLE_ADMIN; User.is_active := true |}.

Definition book (s : Resource.Status) : Resource.t :=
  {| Resource.title := "SICP"; Resource.author := "Abelson";
     Resource.resource_type := Resource.TYPE_BOOK; Resource.rfid_tag := None;
     Resource.barcode := None; Resource.status := s; Resource.created_at := 0 |}.

Definition library (s : Resource.Status) : Database :=
  {| users := {[ 1%nat := row alice; 2%nat := row bob; 3%nat := row carol ]};
     resources := {[ 7%nat := book s ]};
     checkouts := ∅; returns := ∅; reservations := ∅;
     notifications := ∅; reports := ∅ |}.

Definition at_time (now : Z) (d : Database) : World :=
  {| db := d; clock := now; ticks := []; flash := [] |}.

Definition as_user (u : Instance User.t) : HttpRequest := {| user := Some u |}.

(** Alice's loan of the book, taken at time 0 and due after 14 days. *)
Definition loan (s : Checkout.Status) : Checkout.t :=
  {| Checkout.patron := 1; Checkout.resource := 7; Checkout.checkout_date := 0;
     Checkout.due_date := timedelta 14; Checkout.status := s |}.

Definition on_loan : Database :=
  with_checkouts (<[1%nat := loan Checkout.STATUS_ACTIVE]>)
    (library Resource.STATUS_CHECKED_OUT).

(** The same library with nine [PENDING] reservations of Alice. *)
Definition nine_pending : Database :=
  with_reservations
    (λ _, list_to_map ((λ i, (i, new_reservation 1 7 0)) <$> seq 1 9)) on_loan.

(** The library after Bob reserved the book that Alice has on loan. *)
Definition reserved_on_loan : Database :=
  db (reserve_resource (as_user bob) 7%nat (at_time 0 on_loan)).2.

(** A rendering of dates that ignores the date. *)
Definition sample_strftime : string → Z → string := λ _ _, "1970-01-15".

(** ** Views that render ([views.py], lines 59-101, 214-234, 268-275)

    A view that renders answers with [render(request, template,
    context)] or with another response. The querysets of a context are
    given as the rows they hold when the template reads them; no write
    happens between the view and the template. *)

Inductive Page (C : Type) :=
| render (template : string) (context : C)
| respond (response : HttpResponse).
Arguments render {C} _ _.
Arguments respond {C} _.

Definition PageView (A C : Type) : Type := HttpRequest → A → M (Page C).

(** The role gates, at the type of the views that render. *)
Definition login_required_page {A C} (view_func : PageView A C) : PageView A C :=
  λ request args,
  if is_authenticated (user request) then view_func request args
  else ret (respond redirect_to_login).

Definition user_passes_test_page {A C} (test_func : option (Instance User.t) → bool)
    (view_func : PageView A C) : PageView A C := λ request args,
  if test_func (user request) then view_func request args
  else ret (respond redirect_to_login).

Definition staff_required_page {A C} (view_func : PageView A C) : PageView A C :=
  login_required_page
    (user_passes_test_page
       (λ u, match u with
             | Some p => User.is_staff_user (row p)
             | None => false
             end) view_func).

Definition admin_required_page {A C} (view_func : PageView A C) : PageView A C :=
  login_required_page
    (user_passes_test_page
       (λ u, match u with
             | Some p => User.is_admin_user (row p)
             | None => false
             end) view_func).

(** Evaluating a queryset. *)
Definition query {A} (f : Database → A) : M A := λ w, (Returned (f (db w)), w).

(** The rows of a table as instances, in the order of their keys (the
    default order of [first()]). *)
Definition by_pk {A} (a b : nat * A) : Prop := (a.1 ≤ b.1)%nat.

#[global] Instance by_pk_dec {A} (a b : nat * A) : Decision (by_pk a b).
Proof. unfold by_pk. apply _. Defined.

(** [queryset.first()] of a queryset without an order. *)
Definition first {A} (m : gmap nat A) : option (Instance A) :=
  (λ kr, Obj kr.1 kr.2) <$> head (merge_sort by_pk (map_to_list m)).

(** The order of [order_by("-created_at")]. *)
Definition by_created_at_desc (a b : nat * Notification.t) : Prop :=
  Notification.created_at b.2 ≤ Notification.created_at a.2.

#[global] Instance by_created_at_desc_dec a b : Decision (by_created_at_desc a b).
Proof. unfold by_created_at_desc. apply _. Defined.

(** [Notification.objects.filter(user=u).order_by("-created_at")[:n]];
    among equal times the order is that in which the table is listed. *)
Definition latest_notifications (d : Database) (user_pk : nat) (n : nat)
    : list (nat * Notification.t) :=
  take n
    (merge_sort by_created_at_desc
       (map_to_list
          (objects_filter Notification_objects
             (λ x, bool_decide (Notification.user x = user_pk)) d))).

Module Dashboard.
Record t := Build {
  active_checkouts : gmap nat Checkout.t;
  reservations : gmap nat Reservation.t;
  notifications : list (nat * Notification.t)
}.
End Dashboard.

Definition patron_dashboard : PageView () Dashboard.t :=
  login_required_page (λ request _,
    patron <- request_user request ;;
    if negb (User.is_patron (row patron)) then
      ret (respond (redirect "staff_dashboard" None))
    else
    active_checkouts <-
      query (objects_filter Checkout_objects
               (λ c, bool_decide (Checkout.patron c = pk patron)
                     && bool_decide (Checkout.status c = Checkout.STATUS_ACTIVE))) ;;
    reservations <-
      query (objects_filter Reservation_objects
               (λ r, bool_decide (Reservation.patron r = pk patron)
                     && negb (bool_decide
                                (Reservation.status r = Reservation.STATUS_CANCELLED)))) ;;
    notifications <- query (λ d, latest_notifications d (pk patron) 10) ;;
    let context :=
      {| Dashboard.active_checkouts := active_checkouts;
         Dashboard.reservations := reservations;
         Dashboard.notifications := notifications |} in
    ret (render "library/dashboard.html" context)).

Module ResourceDetail.
Record t := Build {
  resource : Instance Resource.t;
  current_checkout : option (Instance Checkout.t)
}.
End ResourceDetail.

Definition resource_detail : PageView nat ResourceDetail.t :=
  login_required_page (λ request pk_,
    resource <- get_object_or_404 Resource_objects pk_ (λ _, true) ;;
    current_checkout <-
      query (λ d, first (objects_filter Checkout_objects
                           (λ c, bool_decide (Checkout.resource c = pk resource)
                                 && bool_decide (Checkout.status c = Checkout.STATUS_ACTIVE))
                           d)) ;;
    let context :=
      {| ResourceDetail.resource := resource;
         ResourceDetail.current_checkout := current_checkout |} in
    ret (render "library/resource_detail.html" context)).

Module StaffDashboard.
Record t := Build {
  resources : gmap nat Resource.t;
  overdue_checkouts : gmap nat Checkout.t;
  popular_resources : list (Resource.t * nat)
}.
End StaffDashboard.

(** [due_date__lt=timezone.now()] is evaluated when the filter is
    built: one reading of the clock. *)
Definition staff_dashboard : PageView () StaffDashboard.t :=
  staff_required_page (λ request _,
    all_resources <- query resources ;;
    now <- timezone_now ;;
    overdue_checkouts <-
      query (objects_filter Checkout_objects
               (λ c, bool_decide (Checkout.status c = Checkout.STATUS_ACTIVE)
                     && bool_decide (Checkout.due_date c < now))) ;;
    popular <- query (λ d, popular_resources d 10) ;;
    let context :=
      {| StaffDashboard.resources := all_resources;
         StaffDashboard.overdue_checkouts := overdue_checkouts;
         StaffDashboard.popular_resources := popular |} in
    ret (render "library/staff_dashboard.html" context)).

Definition admin_staff_list : PageView () (gmap nat User.t) :=
  admin_required_page (λ request _,
    staff_members <-
      query (objects_filter User_objects
               (λ u, bool_decide (User.role u = User.ROLE_STAFF))) ;;
    ret (render "library/admin_staff_list.html" staff_members)).

(** ** Vocabulary of the further properties *)

(** The requesters a route lets through its gate. *)
Definition admitted (route : Route) (u : option (Instance User.t)) : bool :=
  match route, u with
  | _, None => false
  | (url_checkout_resource _ | url_reserve_resource _ | url_return_resource _), Some _ => true
  | (url_staff_process_return _ | url_popular_resources_report), Some p =>
      bool_decide (User.role (row p) = User.ROLE_STAFF)
  | (url_admin_promote_to_staff _ | url_admin_deactivate_staff _), Some p =>
      bool_decide (User.role (row p) = User.ROLE_ADMIN)
  end.

(** One request's change to the checkouts table, as far as the rows
    are concerned: a row that was there is kept, or was [ACTIVE] and is
    now [RETURNED] with its other fields as before; a row that is new
    is [ACTIVE] and sits under the next free key. *)
Definition checkouts_step (m m' : gmap nat Checkout.t) : Prop :=
  (∀ k c, m !! k = Some c →
     m' !! k = Some c
     ∨ (Checkout.status c = Checkout.STATUS_ACTIVE
        ∧ m' !! k = Some (Checkout.set_status Checkout.STATUS_RETURNED c)))
  ∧ (∀ k c', m !! k = None → m' !! k = Some c' →
       Checkout.status c' = Checkout.STATUS_ACTIVE ∧ k = next_pk m).

(** One request's change to the status of the resource under [k],
    from [s] to [s']: none; a checkout of an [AVAILABLE] resource; a
    reservation of one that is not [AVAILABLE]; or the return of an
    [ACTIVE] checkout of the resource. *)
Definition status_step (d : Database) (k : nat) (s s' : Resource.Status) : Prop :=
  s' = s
  ∨ (s = Resource.STATUS_AVAILABLE ∧ s' = Resource.STATUS_CHECKED_OUT)
  ∨ (s ≠ Resource.STATUS_AVAILABLE ∧ s' = Resource.STATUS_RESERVED)
  ∨ (s' = Resource.STATUS_AVAILABLE
     ∧ ∃ checkout_id c, checkouts d !! checkout_id = Some c
                        ∧ Checkout.status c = Checkout.STATUS_ACTIVE
                        ∧ Checkout.resource c = k).

(** A resource that is stored, is not [AVAILABLE] and has no [ACTIVE]
    checkout. *)
Definition held_without_loan (d : Database) (k : nat) : Prop :=
  (∃ r, resources d !! k = Some r ∧ Resource.status r ≠ Resource.STATUS_AVAILABLE)
  ∧ ∀ checkout_id c, checkouts d !! checkout_id = Some c →
      Checkout.status c = Checkout.STATUS_ACTIVE → Checkout.resource c ≠ k.

(** The worlds that requests lead to from a given world. *)
Inductive leads_to (globals : list string) (strftime : string → Z → string)
  : World → World → Prop :=
| leads_to_here w : leads_to globals strftime w w
| leads_to_request w w' route request :
    leads_to globals strftime w w' →
    leads_to globals strftime w (urlpatterns globals strftime route request w').2
| leads_to_between w w' w'' :
    leads_to globals strftime w w' → db w'' = db w' → leads_to globals strftime w w''.




(** * Properties *)

(** ** Running a view by hand *)

Ltac unfold_views :=
  cbv beta iota zeta delta
    [urlpatterns
     checkout_resource return_resource reserve_resource staff_process_return
     admin_promote_to_staff admin_deactivate_staff generate_popular_resources_report
     login_required user_passes_test staff_required admin_required request_user
     calculate_due_date is_overdue calculate_overdue_fine create_notification
     Checkout_objects_create Return_objects_create Reservation_objects_create
     Report_objects_create bind ret raise timezone_now messages_add
     get_object_or_404 related filter_count insert save assign load_global
     User_objects Resource_objects Checkout_objects Return_objects
     Reservation_objects Notification_objects Report_objects is_authenticated].

Ltac proj :=
  cbn [rows with_rows pk row user db clock ticks flash with_db fst snd negb
       with_users with_resources with_checkouts with_returns with_reservations
       with_notifications with_reports
       users resources checkouts returns reservations notifications reports
       Resource.status Resource.set_status Resource.title
       Checkout.status Checkout.set_status Checkout.resource Checkout.patron
       Checkout.due_date Checkout.checkout_date
       User.role User.set_role User.set_is_active User.username User.is_active].

Ltac proj_in H :=
  cbn [rows with_rows pk row user db clock ticks flash with_db fst snd negb
       with_users with_resources with_checkouts with_returns with_reservations
       with_notifications with_reports
       users resources checkouts returns reservations notifications reports
       Resource.status Resource.set_status Resource.title
       Checkout.status Checkout.set_status Checkout.resource Checkout.patron
       Checkout.due_date Checkout.checkout_date
       User.role User.set_role User.set_is_active User.username User.is_active] in H.

(** The same, leaving the fine computation folded. *)
Ltac unfold_views_upto_fine :=
  cbv beta iota zeta delta
    [urlpatterns
     checkout_resource return_resource reserve_resource staff_process_return
     admin_promote_to_staff admin_deactivate_staff generate_popular_resources_report
     login_required user_passes_test staff_required admin_required request_user
     calculate_due_date create_notification
     Checkout_objects_create Return_objects_create Reservation_objects_create
     Report_objects_create bind ret raise timezone_now messages_add
     get_object_or_404 related filter_count insert save assign load_global
     User_objects Resource_objects Checkout_objects Return_objects
     Reservation_objects Notification_objects Report_objects is_authenticated].

(** Splitting on the next test a view makes: a row looked up, or a
    condition decided. *)
Ltac explore_step :=
  match goal with
  | |- context [match ?m !! ?k with Some _ => _ | None => _ end] =>
      destruct (m !! k) eqn:?
  | |- context [bool_decide ?P] => case_bool_decide
  end.

Ltac explore := repeat (proj; explore_step); proj.

(** Closing a leaf of the case analysis of a return view. *)
Ltac close_return_effect c :=
  try (by left);
  right; exists c; eexists; split_and!; proj;
  try done; try (by apply map_size_empty_iff); try done;
  first [by left | right; eexists; split; [eassumption | done]].

(** ** Primary keys *)

Lemma next_pk_fresh {A} (tbl : gmap nat A) : tbl !! next_pk tbl = None.
Proof.
  destruct (tbl !! next_pk tbl) as [x|] eqn:E; [exfalso | done].
  apply elem_of_map_to_list in E.
  apply (list_elem_of_fmap_2 fst) in E. cbn [fst] in E.
  apply max_list_elem_of_le in E. unfold next_pk in E. lia.
Qed.

Lemma timedelta_in_views_globals : "timedelta" ∉ views_globals.
Proof. apply (bool_decide_unpack _). vm_compute. exact I. Qed.

(** ** Checkout *)

(** As [views.py] stands, a patron's checkout of an available resource
    stops at [calculate_due_date]: the clock is read once, the name
    [timedelta] is not found, and nothing is written. *)
Lemma checkout_resource_NameError strftime w request patron k r :
  user request = Some patron →
  User.role (row patron) = User.ROLE_PATRON →
  resources (db w) !! k = Some r →
  Resource.status r = Resource.STATUS_AVAILABLE →
  checkout_resource views_globals strftime request k w
  = (Raised (NameError "timedelta"),
     {| db := db w; clock := clock w + hd 0 (ticks w);
        ticks := tail (ticks w); flash := flash w |}).
Proof.
  intros Hu Hrole Hr Hs.
  unfold_views. proj. rewrite Hu. proj.
  unfold User.is_patron. rewrite Hrole, bool_decide_true by done. proj.
  rewrite Hr. proj. rewrite Hs, bool_decide_false by (intros ?; done).
  rewrite (bool_decide_false _ timedelta_in_views_globals). done.
Qed.

(** With [timedelta] bound in the module, the same request goes
    through: one [ACTIVE] checkout is inserted under a fresh key, due 14
    days after the first reading of the clock, and the resource becomes
    [CHECKED_OUT]. *)
Lemma checkout_resource_with_timedelta globals strftime w request patron k r :
  "timedelta" ∈ globals →
  user request = Some patron →
  User.role (row patron) = User.ROLE_PATRON →
  resources (db w) !! k = Some r →
  Resource.status r = Resource.STATUS_AVAILABLE →
  let t1 := clock w + hd 0 (ticks w) in
  let t2 := t1 + hd 0 (tail (ticks w)) in
  let result := checkout_resource globals strftime request k w in
  result.1 = Returned (redirect "patron_dashboard" None)
  ∧ checkouts (db result.2)
    = <[next_pk (checkouts (db w)) :=
          {| Checkout.patron := pk patron; Checkout.resource := k;
             Checkout.checkout_date := t2; Checkout.due_date := t1 + timedelta 14;
             Checkout.status := Checkout.STATUS_ACTIVE |}]> (checkouts (db w))
  ∧ resources (db result.2)
    = <[k := Resource.set_status Resource.STATUS_CHECKED_OUT r]> (resources (db w)).
Proof.
  intros Hg Hu Hrole Hr Hs t1 t2 result. subst result t1 t2.
  unfold_views. proj. rewrite Hu. proj.
  unfold User.is_patron. rewrite Hrole, bool_decide_true by done. proj.
  rewrite Hr. proj. rewrite Hs, bool_decide_false by (intros ?; done).
  rewrite (bool_decide_true _ Hg). proj. done.
Qed.

(** C1, at a concrete library: Alice, a patron, checks out the one
    book, which is available. The view raises [NameError], no checkout
    row exists afterwards and the book is still [AVAILABLE]; the claim
    asks for one [ACTIVE] checkout and a [CHECKED_OUT] book. *)
Theorem C1_checkout_resource_raises :
  let w := at_time 0 (library Resource.STATUS_AVAILABLE) in
  let result := checkout_resource views_globals sample_strftime (as_user alice) 7%nat w in
  User.role (row alice) = User.ROLE_PATRON
  ∧ Resource.status <$> resources (db w) !! 7%nat = Some Resource.STATUS_AVAILABLE
  ∧ result.1 = Raised (NameError "timedelta")
  ∧ checkouts (db result.2) = ∅
  ∧ Resource.status <$> resources (db result.2) !! 7%nat = Some Resource.STATUS_AVAILABLE.
Proof.
  cbv zeta.
  rewrite (checkout_resource_NameError sample_strftime _ (as_user alice) alice 7%nat
             (book Resource.STATUS_AVAILABLE)) by done.
  done.
Qed.

(** ** Fines *)

Lemma microseconds_per_day_pos : 0 < microseconds_per_day.
Proof. done. Qed.

(** The fine in terms of the two readings of the clock that
    [calculate_overdue_fine] makes. *)
Lemma calculate_overdue_fine_active c w :
  Checkout.status c = Checkout.STATUS_ACTIVE →
  let t1 := clock w + hd 0 (ticks w) in
  let t2 := t1 + hd 0 (tail (ticks w)) in
  calculate_overdue_fine c w
  = if bool_decide (t1 > Checkout.due_date c)
    then (Returned (Z.max 0 (timedelta_days (t2 - Checkout.due_date c)) * 1),
          {| db := db w; clock := t2; ticks := tail (tail (ticks w)); flash := flash w |})
    else (Returned 0,
          {| db := db w; clock := t1; ticks := tail (ticks w); flash := flash w |}).
Proof.
  intros Hs t1 t2. subst t1 t2. unfold_views. rewrite Hs. proj.
  rewrite bool_decide_true by done. proj.
  case_bool_decide; done.
Qed.

Lemma calculate_overdue_fine_served_at c d now f :
  Checkout.status c = Checkout.STATUS_ACTIVE →
  calculate_overdue_fine c {| db := d; clock := now; ticks := []; flash := f |}
  = (Returned (fine_at now c), {| db := d; clock := now; ticks := []; flash := f |}).
Proof.
  intros Hs. rewrite calculate_overdue_fine_active by done.
  cbn [hd tail clock ticks db flash]. rewrite !Z.add_0_r. unfold fine_at.
  repeat case_bool_decide; try lia; try done.
  f_equal. f_equal. unfold whole_days, timedelta_days.
  pose proof microseconds_per_day_pos.
  rewrite Z.quot_div_nonneg by lia.
  rewrite Z.max_r; [done|]. apply Z.div_pos; lia.
Qed.


Lemma return_records_none d checkout_id :
  return_records d checkout_id = ∅ →
  size (objects_filter {| rows := returns; with_rows := with_returns |}
          (λ r, bool_decide (Return.checkout r = checkout_id)) d) = 0%nat.
Proof. intros H. apply map_size_empty_iff. exact H. Qed.







(** ** Returns *)

Lemma return_resource_effect request checkout_id w :
  return_effect checkout_id (db w) (db (return_resource request checkout_id w).2).
Proof.
  unfold_views.
  destruct (user request) as [patron|]; proj; [|by left].
  destruct (checkouts (db w) !! checkout_id) as [c|] eqn:Hc; proj; [|by left].
  case_bool_decide; proj; [|by left].
  case_bool_decide as Hs; proj; [by left|].
  rewrite Hs. proj. rewrite bool_decide_true by done.
  explore; close_return_effect c.
Qed.

Lemma staff_process_return_effect request checkout_id w :
  return_effect checkout_id (db w) (db (staff_process_return request checkout_id w).2).
Proof.
  unfold_views.
  destruct (user request) as [actor|]; proj; [|by left].
  destruct (User.is_staff_user (row actor)); proj; [|by left].
  destruct (checkouts (db w) !! checkout_id) as [c|] eqn:Hc; proj; [|by left].
  case_bool_decide as Hs; proj; [by left|].
  rewrite Hs. proj. rewrite bool_decide_true by done.
  explore; close_return_effect c.
Qed.

Lemma flashed_app w d t k extra :
  flashed w {| db := d; clock := t; ticks := k; flash := flash w ++ extra |} = extra.
Proof. unfold flashed. proj. by rewrite drop_app_length. Qed.

(** A return of a checkout that is not [ACTIVE] changes no row and is
    turned down. *)
Lemma return_resource_not_active w request checkout_id c :
  checkouts (db w) !! checkout_id = Some c →
  Checkout.status c ≠ Checkout.STATUS_ACTIVE →
  db (return_resource request checkout_id w).2 = db w
  ∧ rejected w (return_resource request checkout_id w).
Proof.
  intros Hc Hs. unfold rejected. unfold_views.
  destruct (user request) as [patron|]; proj; [|by auto].
  rewrite Hc. proj. case_bool_decide; proj; [|by auto].
  rewrite bool_decide_true by done. proj.
  split; [done|]. right; right. eexists. apply flashed_app.
Qed.

Lemma staff_process_return_not_active w request checkout_id c :
  checkouts (db w) !! checkout_id = Some c →
  Checkout.status c ≠ Checkout.STATUS_ACTIVE →
  db (staff_process_return request checkout_id w).2 = db w
  ∧ rejected w (staff_process_return request checkout_id w).
Proof.
  intros Hc Hs. unfold rejected. unfold_views.
  destruct (user request) as [actor|]; proj; [|by auto].
  destruct (User.is_staff_user (row actor)); proj; [|by auto].
  rewrite Hc. proj.
  rewrite bool_decide_true by done. proj.
  split; [done|]. right; right. eexists. apply flashed_app.
Qed.

(** After a return that filed a record, the checkout is no longer
    [ACTIVE] and has exactly that one record. *)
Lemma return_effect_filed checkout_id d d' :
  return_effect checkout_id d d' →
  return_records d checkout_id = ∅ →
  return_records d' checkout_id ≠ ∅ →
  size (return_records d' checkout_id) = 1%nat
  ∧ ∃ c', checkouts d' !! checkout_id = Some c'
        ∧ Checkout.status c' = Checkout.STATUS_RETURNED.
Proof.
  intros [-> | (c & record & Hc & Hs & Hnone & Hrec & Hret & Hco & _)] Hbefore Hafter;
    [done|].
  split.
  - unfold return_records, objects_filter, Return_objects in *. proj. proj_in Hbefore.
    rewrite Hret.
    rewrite map_filter_insert_True by (cbn; by apply bool_decide_eq_true_2).
    rewrite Hbefore. by rewrite insert_empty, map_size_singleton.
  - exists (Checkout.set_status Checkout.STATUS_RETURNED c).
    rewrite Hco. by rewrite lookup_insert_eq.
Qed.

Lemma return_views_effect view request checkout_id w :
  view ∈ return_views →
  return_effect checkout_id (db w) (db (view request checkout_id w).2).
Proof.
  unfold return_views. rewrite !elem_of_cons, elem_of_nil. intros [-> | [-> | []]].
  - apply return_resource_effect.
  - apply staff_process_return_effect.
Qed.

(** C3. A return of a checkout whose status is not [ACTIVE], by either
    return view, changes nothing in the store (so no return record is
    created and no checkout or resource field changes) and is turned
    down. Hence once a return has filed its record, a second return of
    the same checkout, by either view and whoever asks, changes nothing
    and is turned down: the checkout keeps exactly one return record. *)
Theorem C3_return_not_active :
  (∀ view w request checkout_id c,
     view ∈ return_views →
     checkouts (db w) !! checkout_id = Some c →
     Checkout.status c ≠ Checkout.STATUS_ACTIVE →
     db (view request checkout_id w).2 = db w
     ∧ rejected w (view request checkout_id w))
  ∧ (∀ first second w request request' checkout_id,
       first ∈ return_views → second ∈ return_views →
       return_records (db w) checkout_id = ∅ →
       let w1 := (first request checkout_id w).2 in
       return_records (db w1) checkout_id ≠ ∅ →
       ∀ w2, db w2 = db w1 →
         db (second request' checkout_id w2).2 = db w1
         ∧ rejected w2 (second request' checkout_id w2)
         ∧ size (return_records (db (second request' checkout_id w2).2) checkout_id) = 1%nat).
Proof.
  assert (Hpart : ∀ view w request checkout_id c,
     view ∈ return_views →
     checkouts (db w) !! checkout_id = Some c →
     Checkout.status c ≠ Checkout.STATUS_ACTIVE →
     db (view request checkout_id w).2 = db w
     ∧ rejected w (view request checkout_id w)).
  { intros view w request checkout_id c Hv Hc Hs. revert Hv.
    unfold return_views. rewrite !elem_of_cons, elem_of_nil. intros [-> | [-> | []]].
    - by apply (return_resource_not_active w request checkout_id c).
    - by apply (staff_process_return_not_active w request checkout_id c). }
  split; [exact Hpart|].
  intros first second w request request' checkout_id Hf Hsnd Hnone w1 Hfiled w2 Hw2.
  destruct (return_effect_filed checkout_id (db w) (db w1)) as (Hone & c' & Hc' & Hs');
    [by apply return_views_effect | done | done |].
  destruct (Hpart second w2 request' checkout_id c') as [Hdb Hrej];
    [done | by rewrite Hw2 | by rewrite Hs' |].
  rewrite Hdb, Hw2. done.
Qed.

(** ** Returns and the resource's status *)

Lemma return_resource_resources w request actor checkout_id c r :
  user request = Some actor →
  checkouts (db w) !! checkout_id = Some c →
  Checkout.patron c = pk actor →
  Checkout.status c = Checkout.STATUS_ACTIVE →
  return_records (db w) checkout_id = ∅ →
  resources (db w) !! Checkout.resource c = Some r →
  resources (db (return_resource request checkout_id w).2)
  = <[Checkout.resource c := Resource.set_status Resource.STATUS_AVAILABLE r]>
      (resources (db w)).
Proof.
  intros Hu Hco Hp Hs Hr Hres. apply return_records_none in Hr.
  unfold_views. proj. rewrite Hu. proj. rewrite Hco. proj.
  rewrite (bool_decide_true _ Hp). proj.
  rewrite bool_decide_false by (intros ?; done). proj.
  rewrite Hs. proj. rewrite bool_decide_true by done.
  explore; simplify_eq; done.
Qed.

Lemma staff_process_return_resources w request actor checkout_id c r :
  user request = Some actor →
  User.role (row actor) = User.ROLE_STAFF →
  checkouts (db w) !! checkout_id = Some c →
  Checkout.status c = Checkout.STATUS_ACTIVE →
  return_records (db w) checkout_id = ∅ →
  resources (db w) !! Checkout.resource c = Some r →
  resources (db (staff_process_return request checkout_id w).2)
  = <[Checkout.resource c := Resource.set_status Resource.STATUS_AVAILABLE r]>
      (resources (db w)).
Proof.
  intros Hu Hrole Hco Hs Hr Hres. apply return_records_none in Hr.
  unfold_views. proj. rewrite Hu. proj.
  unfold User.is_staff_user. rewrite Hrole, bool_decide_true by done. proj.
  rewrite Hco. proj.
  rewrite bool_decide_false by (intros ?; done). proj.
  rewrite Hs. proj. rewrite bool_decide_true by done.
  explore; simplify_eq; done.
Qed.

(** C10. A return that goes through, by either return view, stores the
    resource of the checkout with status [AVAILABLE] whatever its status
    was before ([RESERVED] included: nothing is assumed of it), and no
    call of a return view, whether it goes through or not, changes the
    reservations table. *)
Theorem C10_return_sets_available w request actor checkout_id c r :
  user request = Some actor →
  checkouts (db w) !! checkout_id = Some c →
  Checkout.status c = Checkout.STATUS_ACTIVE →
  return_records (db w) checkout_id = ∅ →
  resources (db w) !! Checkout.resource c = Some r →
  let available := Resource.set_status Resource.STATUS_AVAILABLE r in
  (Checkout.patron c = pk actor →
     resources (db (return_resource request checkout_id w).2)
     = <[Checkout.resource c := available]> (resources (db w)))
  ∧ (User.role (row actor) = User.ROLE_STAFF →
     resources (db (staff_process_return request checkout_id w).2)
     = <[Checkout.resource c := available]> (resources (db w)))
  ∧ Resource.status available = Resource.STATUS_AVAILABLE
  ∧ (∀ view request' checkout_id' w',
       view ∈ return_views →
       reservations (db (view request' checkout_id' w').2) = reservations (db w')).
Proof.
  intros Hu Hco Hs Hr Hres available. split_and!.
  - intros Hp. by apply (return_resource_resources w request actor).
  - intros Hrole. by apply (staff_process_return_resources w request actor).
  - done.
  - intros view request' checkout_id' w' Hv.
    destruct (return_views_effect view request' checkout_id' w' Hv)
      as [-> | (? & ? & ? & ? & ? & ? & ? & ? & ? & ? & ?)]; done.
Qed.

(** ** Reservations *)

Lemma pending_count_fold d patron_pk :
  size (objects_filter {| rows := reservations; with_rows := with_reservations |}
          (λ r, bool_decide (Reservation.patron r = patron_pk)
                && bool_decide (Reservation.status r = Reservation.STATUS_PENDING)) d)
  = pending_count d patron_pk.
Proof. reflexivity. Qed.

Lemma pending_count_insert d patron_pk resource_pk t (f : Database → Database) :
  reservations (f d)
  = <[next_pk (reservations d) := new_reservation patron_pk resource_pk t]> (reservations d) →
  pending_count (f d) patron_pk = S (pending_count d patron_pk).
Proof.
  intros Hf. unfold pending_count, objects_filter, Reservation_objects. proj. rewrite Hf.
  rewrite map_filter_insert_True.
  - apply map_size_insert_None. apply map_lookup_filter_None_2. left. apply next_pk_fresh.
  - cbn. unfold pending_of. cbn. by rewrite !bool_decide_true.
Qed.

(** At the cap: nothing is written and the request is turned down. *)
Lemma reserve_resource_at_cap w request patron k :
  user request = Some patron →
  (MAX_ACTIVE_RESERVATIONS_PER_PATRON ≤ pending_count (db w) (pk patron))%nat →
  db (reserve_resource request k w).2 = db w
  ∧ rejected w (reserve_resource request k w).
Proof.
  intros Hu Hn. unfold rejected. unfold_views. proj. rewrite Hu. proj.
  destruct (resources (db w) !! k) as [r|]; proj; [|by auto].
  rewrite pending_count_fold, (bool_decide_true _ Hn). proj.
  split; [done|]. right; right. eexists. apply flashed_app.
Qed.

(** Under the cap, on a resource that is [AVAILABLE]: nothing is
    written, the patron is sent back to the resource with a hint. *)
Lemma reserve_resource_available w request patron k r :
  user request = Some patron →
  resources (db w) !! k = Some r →
  Resource.status r = Resource.STATUS_AVAILABLE →
  (pending_count (db w) (pk patron) < MAX_ACTIVE_RESERVATIONS_PER_PATRON)%nat →
  reserve_resource request k w
  = (Returned (redirect "resource_detail" (Some k)),
     {| db := db w; clock := clock w; ticks := ticks w;
        flash := flash w
                 ++ [(info, "Resource is available. Consider checking it out instead.")] |}).
Proof.
  intros Hu Hr Hs Hn. unfold_views. proj. rewrite Hu. proj. rewrite Hr. proj.
  rewrite pending_count_fold, bool_decide_false by lia. proj.
  rewrite Hs, bool_decide_true by done. done.
Qed.

(** Under the cap, on a resource that is not [AVAILABLE]: the
    reservation is placed. *)
Lemma reserve_resource_placed w request patron k r :
  user request = Some patron →
  resources (db w) !! k = Some r →
  Resource.status r ≠ Resource.STATUS_AVAILABLE →
  (pending_count (db w) (pk patron) < MAX_ACTIVE_RESERVATIONS_PER_PATRON)%nat →
  let result := reserve_resource request k w in
  result.1 = Returned (redirect "patron_dashboard" None)
  ∧ reservations (db result.2)
    = <[next_pk (reservations (db w)) :=
          new_reservation (pk patron) k (clock w + hd 0 (ticks w))]>
        (reservations (db w))
  ∧ resources (db result.2)
    = <[k := Resource.set_status Resource.STATUS_RESERVED r]> (resources (db w))
  ∧ checkouts (db result.2) = checkouts (db w)
  ∧ flashed w result.2
    = [(success, "Reservation placed for '" +:+ Resource.title r +:+ "'.")].
Proof.
  intros Hu Hr Hs Hn result. subst result.
  unfold_views. proj. rewrite Hu. proj. rewrite Hr. proj.
  rewrite pending_count_fold, bool_decide_false by lia. proj.
  rewrite bool_decide_false by done. proj.
  split_and!; try done. apply flashed_app.
Qed.

(** The role of the requester plays no part in [reserve_resource]. *)
Lemma reserve_resource_any_role p role' k w :
  reserve_resource {| user := Some (assign (User.set_role role') p) |} k w
  = reserve_resource {| user := Some p |} k w.
Proof. reflexivity. Qed.

Lemma reserve_resource_under_cap w request patron k :
  user request = Some patron →
  (pending_count (db w) (pk patron) < MAX_ACTIVE_RESERVATIONS_PER_PATRON)%nat →
  flashed w (reserve_resource request k w).2 ≠ [cap_message].
Proof.
  intros Hu Hn.
  destruct (resources (db w) !! k) as [r|] eqn:Hr.
  - destruct (decide (Resource.status r = Resource.STATUS_AVAILABLE)) as [Hs|Hs].
    + rewrite (reserve_resource_available w request patron k r) by done.
      proj. by rewrite flashed_app.
    + destruct (reserve_resource_placed w request patron k r) as (_ & _ & _ & _ & ->);
        done.
  - unfold_views. proj. rewrite Hu. proj. rewrite Hr. proj.
    unfold flashed. by rewrite drop_all.
Qed.

(** C4. With 10 or more [PENDING] reservations of the requester, a
    reserve request changes nothing in the store and is turned down.
    With 9 or fewer it is not answered with the cap message, and on a
    resource that is not [AVAILABLE] it places the reservation, which
    raises the count by one; so with 9 the tenth reservation is placed,
    and every further attempt by the same patron is turned down without
    a change. *)
Theorem C4_reservation_cap w request patron k :
  user request = Some patron →
  let n := pending_count (db w) (pk patron) in
  let result := reserve_resource request k w in
  ((10 ≤ n)%nat → db result.2 = db w ∧ rejected w result)
  ∧ ((n ≤ 9)%nat → flashed w result.2 ≠ [cap_message])
  ∧ ((n ≤ 9)%nat →
     ∀ r, resources (db w) !! k = Some r →
          Resource.status r ≠ Resource.STATUS_AVAILABLE →
       result.1 = Returned (redirect "patron_dashboard" None)
       ∧ reservations (db result.2)
         = <[next_pk (reservations (db w)) :=
               new_reservation (pk patron) k (clock w + hd 0 (ticks w))]>
             (reservations (db w))
       ∧ reservations (db w) !! next_pk (reservations (db w)) = None
       ∧ pending_count (db result.2) (pk patron) = S n
       ∧ (n = 9%nat →
          ∀ request' k' w',
            user request' = Some patron → db w' = db result.2 →
            db (reserve_resource request' k' w').2 = db w'
            ∧ rejected w' (reserve_resource request' k' w'))).
Proof.
  intros Hu n result. split_and!.
  - intros Hn. by apply (reserve_resource_at_cap w request patron).
  - intros Hn. apply (reserve_resource_under_cap w request patron); [done|].
    unfold MAX_ACTIVE_RESERVATIONS_PER_PATRON. fold n. lia.
  - intros Hn r Hr Hs.
    assert (Hlt : (pending_count (db w) (pk patron)
                   < MAX_ACTIVE_RESERVATIONS_PER_PATRON)%nat).
    { unfold MAX_ACTIVE_RESERVATIONS_PER_PATRON. fold n. lia. }
    destruct (reserve_resource_placed w request patron k r Hu Hr Hs Hlt)
      as (Hres & Hrsv & _ & _ & _).
    fold result in Hres, Hrsv.
    assert (Hcount : pending_count (db result.2) (pk patron) = S n).
    { apply (pending_count_insert (db w) (pk patron) k
               (clock w + hd 0 (ticks w)) (λ _, db result.2)). exact Hrsv. }
    split_and!; try done.
    + apply next_pk_fresh.
    + intros Hnine request' k' w' Hu' Hw'.
      apply (reserve_resource_at_cap w' request' patron); [done|].
      rewrite Hw', Hcount, Hnine. unfold MAX_ACTIVE_RESERVATIONS_PER_PATRON. lia.
Qed.

(** C6, at a concrete library: Bob, whose role is [STAFF], asks to
    reserve the book while it is on loan. The request is not turned
    down: a [PENDING] reservation in Bob's name is stored and the book
    goes from [CHECKED_OUT] to [RESERVED]. The claim asks for a
    rejection without a reservation or a change of the resource. *)
Theorem C6_reserve_resource_by_staff :
  let w := at_time 0 on_loan in
  let result := reserve_resource (as_user bob) 7%nat w in
  User.role (row bob) = User.ROLE_STAFF
  ∧ Resource.status <$> resources (db w) !! 7%nat = Some Resource.STATUS_CHECKED_OUT
  ∧ reservations (db w) = ∅
  ∧ result.1 = Returned (redirect "patron_dashboard" None)
  ∧ reservations (db result.2) = {[ 1%nat := new_reservation (pk bob) 7 0 ]}
  ∧ Resource.status <$> resources (db result.2) !! 7%nat = Some Resource.STATUS_RESERVED.
Proof.
  cbv zeta.
  destruct (reserve_resource_placed (at_time 0 on_loan) (as_user bob) bob 7%nat
              (book Resource.STATUS_CHECKED_OUT))
    as (Hres & Hrsv & Hrs & _ & _); [done | done | done | by vm_compute; lia |].
  rewrite Hres, Hrsv, Hrs. split_and!; done.
Qed.

(** C7. Under the cap, a reserve request on a resource that is
    [AVAILABLE] writes nothing: no reservation is created and the
    resource keeps its status. The answer is a redirect to the resource
    with an [info] message that advises a checkout, not an error. *)
Theorem C7_reserve_available w request patron k r :
  user request = Some patron →
  resources (db w) !! k = Some r →
  Resource.status r = Resource.STATUS_AVAILABLE →
  (pending_count (db w) (pk patron) < MAX_ACTIVE_RESERVATIONS_PER_PATRON)%nat →
  let result := reserve_resource request k w in
  result.1 = Returned (redirect "resource_detail" (Some k))
  ∧ db result.2 = db w
  ∧ reservations (db result.2) = reservations (db w)
  ∧ resources (db result.2) !! k = Some r
  ∧ flashed w result.2
    = [(info, "Resource is available. Consider checking it out instead.")].
Proof.
  intros Hu Hr Hs Hn result. subst result.
  rewrite (reserve_resource_available w request patron k r) by done. proj.
  split_and!; try done. apply flashed_app.
Qed.

(** C9. Under the cap, a reserve request of an authenticated user (a
    patron in particular) on a resource that is [LOST] goes through: a
    [PENDING] reservation is inserted under a fresh key and the
    resource is stored with status [RESERVED]. *)
Theorem C9_reserve_lost w request patron k r :
  user request = Some patron →
  resources (db w) !! k = Some r →
  Resource.status r = Resource.STATUS_LOST →
  (pending_count (db w) (pk patron) < MAX_ACTIVE_RESERVATIONS_PER_PATRON)%nat →
  let result := reserve_resource request k w in
  let placed := new_reservation (pk patron) k (clock w + hd 0 (ticks w)) in
  result.1 = Returned (redirect "patron_dashboard" None)
  ∧ reservations (db result.2) = <[next_pk (reservations (db w)) := placed]> (reservations (db w))
  ∧ reservations (db w) !! next_pk (reservations (db w)) = None
  ∧ Reservation.status placed = Reservation.STATUS_PENDING
  ∧ resources (db result.2) = <[k := Resource.set_status Resource.STATUS_RESERVED r]> (resources (db w))
  ∧ Resource.status <$> resources (db result.2) !! k = Some Resource.STATUS_RESERVED.
Proof.
  intros Hu Hr Hs Hn result placed.
  destruct (reserve_resource_placed w request patron k r) as (Hres & Hrsv & Hrs & _ & _);
    [done | done | by rewrite Hs | done |].
  fold result in Hres, Hrsv, Hrs. rewrite Hrs, lookup_insert_eq.
  split_and!; try done. apply next_pk_fresh.
Qed.

(** ** Staff accounts *)

Lemma with_users_insert_id d user_id u :
  users d !! user_id = Some u → with_users (<[user_id := u]>) d = d.
Proof. intros H. destruct d. unfold with_users. proj. proj_in H. by rewrite insert_id. Qed.

(** Behind the admin gate, and when the target exists, the promote view
    stores the target with role [STAFF]; nothing else is written. *)
Lemma admin_promote_to_staff_db w request admin user_id u :
  user request = Some admin →
  User.role (row admin) = User.ROLE_ADMIN →
  users (db w) !! user_id = Some u →
  db (admin_promote_to_staff request user_id w).2
  = with_users (<[user_id := User.set_role User.ROLE_STAFF u]>) (db w).
Proof.
  intros Hu Hrole Hlook. unfold_views. proj. rewrite Hu. proj.
  unfold User.is_admin_user. rewrite Hrole, bool_decide_true by done. proj.
  rewrite Hlook. done.
Qed.

(** Promoting a user who is already stored with role [STAFF] changes
    nothing, whoever asks. *)
Lemma admin_promote_to_staff_again w request user_id u :
  users (db w) !! user_id = Some (User.set_role User.ROLE_STAFF u) →
  db (admin_promote_to_staff request user_id w).2 = db w.
Proof.
  intros Hlook. unfold_views.
  destruct (user request) as [actor|]; proj; [|done].
  destruct (User.is_admin_user (row actor)); proj; [|done].
  rewrite Hlook. proj. by apply with_users_insert_id.
Qed.

(** C8. Behind the admin gate, promoting an existing user stores that
    user with role [STAFF], whatever the role and the activity flag
    were, and leaves the user's other fields and all other rows as they
    are. Promoting the same user once more, whoever asks and whenever,
    leaves the store as the first promotion left it. *)
Theorem C8_promote_idempotent w request admin user_id u :
  user request = Some admin →
  User.role (row admin) = User.ROLE_ADMIN →
  users (db w) !! user_id = Some u →
  let w1 := (admin_promote_to_staff request user_id w).2 in
  db w1 = with_users (<[user_id := User.set_role User.ROLE_STAFF u]>) (db w)
  ∧ User.role <$> users (db w1) !! user_id = Some User.ROLE_STAFF
  ∧ (∀ request' w2, db w2 = db w1 →
       db (admin_promote_to_staff request' user_id w2).2 = db w1).
Proof.
  intros Hu Hrole Hlook w1.
  assert (Hdb : db w1 = with_users (<[user_id := User.set_role User.ROLE_STAFF u]>) (db w)).
  { by apply (admin_promote_to_staff_db w request admin). }
  assert (Hlook1 : users (db w1) !! user_id = Some (User.set_role User.ROLE_STAFF u)).
  { rewrite Hdb. proj. by rewrite lookup_insert_eq. }
  split_and!.
  - done.
  - by rewrite Hlook1.
  - intros request' w2 Hw2. rewrite <- Hw2.
    apply (admin_promote_to_staff_again w2 request' user_id u). by rewrite Hw2.
Qed.

(** ** One active checkout per resource *)

Lemma lending_consistent_same d d' :
  checkouts d' = checkouts d → resources d' = resources d →
  lending_consistent d → lending_consistent d'.
Proof.
  intros Hc Hr [H1 H2]. split.
  - intros k1 k2 c1 c2. rewrite Hc. apply H1.
  - intros k c r. rewrite Hc, Hr. apply H2.
Qed.

Lemma nothing_on_loan_consistent d : nothing_on_loan d → lending_consistent d.
Proof.
  intros H. split.
  - intros k1 k2 c1 c2 Hc1 _ Hs1 _ _. by destruct (H k1 c1 Hc1).
  - intros k c r Hc Hs _. by destruct (H k c Hc).
Qed.

(** A new [ACTIVE] checkout of a resource that was [AVAILABLE]. *)
Lemma lending_consistent_checkout d d' k r fresh c :
  lending_consistent d →
  resources d !! k = Some r → Resource.status r = Resource.STATUS_AVAILABLE →
  checkouts d !! fresh = None → Checkout.resource c = k →
  checkouts d' = <[fresh := c]> (checkouts d) →
  resources d' = <[k := Resource.set_status Resource.STATUS_CHECKED_OUT r]> (resources d) →
  lending_consistent d'.
Proof.
  intros [H1 H2] Hr Hs Hfresh Hck Hc' Hr'.
  assert (Hold : ∀ k0 c0, checkouts d !! k0 = Some c0 →
                 Checkout.status c0 = Checkout.STATUS_ACTIVE →
                 Checkout.resource c0 ≠ k).
  { intros k0 c0 Hc0 Hs0 Heq. apply (H2 k0 c0 r Hc0 Hs0); [by rewrite Heq | done]. }
  split.
  - intros k1 k2 c1 c2. rewrite Hc'. rewrite !lookup_insert.
    repeat case_decide; intros; simplify_eq; try done.
    + by destruct (Hold k2 c2).
    + by destruct (Hold k1 c1).
    + by apply (H1 k1 k2 c1 c2).
  - intros k0 c0 r0. rewrite Hc', Hr'. rewrite !lookup_insert.
    repeat case_decide; intros; simplify_eq; try done.
    by apply (H2 k0 c0 r0).
Qed.

(** A return. *)
Lemma lending_consistent_return d d' checkout_id :
  return_effect checkout_id d d' → lending_consistent d → lending_consistent d'.
Proof.
  intros [-> | (c & record & Hc & Hs & _ & _ & _ & Hc' & Hr' & _)] [H1 H2]; [done|].
  assert (Holder : ∀ k0 c0, checkouts d' !! k0 = Some c0 →
            Checkout.status c0 = Checkout.STATUS_ACTIVE →
            k0 ≠ checkout_id ∧ checkouts d !! k0 = Some c0).
  { intros k0 c0. rewrite Hc', lookup_insert. case_decide; intros; simplify_eq; done. }
  split.
  - intros k1 k2 c1 c2 Hc1 Hc2 Hs1 Hs2 Hres.
    destruct (Holder k1 c1 Hc1 Hs1) as [_ Ho1], (Holder k2 c2 Hc2 Hs2) as [_ Ho2].
    by apply (H1 k1 k2 c1 c2).
  - intros k0 c0 r0 Hc0 Hs0.
    destruct (Holder k0 c0 Hc0 Hs0) as [Hne Ho].
    destruct Hr' as [-> | (r & Hr & ->)]; [by apply (H2 k0 c0 r0)|].
    rewrite lookup_insert. case_decide as Hsame.
    + destruct Hne. symmetry in Hsame. by apply (H1 k0 checkout_id c0 c).
    + by apply (H2 k0 c0 r0).
Qed.

(** A reservation placed. *)
Lemma lending_consistent_reserve d d' k r :
  lending_consistent d →
  checkouts d' = checkouts d →
  resources d' = <[k := Resource.set_status Resource.STATUS_RESERVED r]> (resources d) →
  lending_consistent d'.
Proof.
  intros [H1 H2] Hc' Hr'. split.
  - intros k1 k2 c1 c2. rewrite Hc'. apply H1.
  - intros k0 c0 r0. rewrite Hc', Hr', lookup_insert.
    case_decide; intros; simplify_eq; [done | by apply (H2 k0 c0 r0)].
Qed.

(** Every view keeps the store consistent, whatever path it takes, and
    whether or not [timedelta] is bound in the module. *)
Lemma urlpatterns_consistent globals strftime route request w :
  lending_consistent (db w) →
  lending_consistent (db (urlpatterns globals strftime route request w).2).
Proof.
  intros Hinv. destruct route as [k | k | cid | cid | | uid | uid]; cbn [urlpatterns].
  - unfold_views.
    destruct (user request) as [patron|]; proj; [|done].
    destruct (User.is_patron (row patron)); proj; [|done].
    explore; try done.
    eapply (lending_consistent_checkout (db w)); proj; try done.
    + apply next_pk_fresh.
    + done.
  - unfold_views.
    destruct (user request) as [patron|]; proj; [|done].
    explore; try done.
    by eapply (lending_consistent_reserve (db w)); proj.
  - apply (lending_consistent_return (db w) _ cid); [apply return_resource_effect | done].
  - apply (lending_consistent_return (db w) _ cid);
      [apply staff_process_return_effect | done].
  - unfold_views.
    destruct (user request) as [actor|]; proj; [|done].
    destruct (User.is_staff_user (row actor)); proj; [|done].
    by apply (lending_consistent_same (db w)).
  - unfold_views.
    destruct (user request) as [actor|]; proj; [|done].
    destruct (User.is_admin_user (row actor)); proj; [|done].
    explore; done.
  - unfold_views.
    destruct (user request) as [actor|]; proj; [|done].
    destruct (User.is_admin_user (row actor)); proj; [|done].
    explore; done.
Qed.

Lemma reachable_consistent globals strftime w :
  reachable globals strftime w → lending_consistent (db w).
Proof.
  induction 1 as [w Hinit | w route request _ IH | w w' _ IH Hdb].
  - by apply nothing_on_loan_consistent.
  - by apply urlpatterns_consistent.
  - by rewrite Hdb.
Qed.

(** As [views.py] stands, no request to [checkout_resource] writes to
    the store. *)
Lemma checkout_resource_as_written_db strftime request k w :
  db (checkout_resource views_globals strftime request k w).2 = db w.
Proof.
  unfold_views.
  destruct (user request) as [patron|]; proj; [|done].
  destruct (User.is_patron (row patron)); proj; [|done].
  explore; try done.
  by destruct timedelta_in_views_globals.
Qed.

Lemma at_most_one_active_same d d' :
  checkouts d' = checkouts d → at_most_one_active d → at_most_one_active d'.
Proof. intros Hc H k1 k2 c1 c2. rewrite Hc. apply H. Qed.

Lemma at_most_one_active_return d d' checkout_id :
  return_effect checkout_id d d' → at_most_one_active d → at_most_one_active d'.
Proof.
  intros [-> | (c & record & Hc & Hs & _ & _ & _ & Hc' & _)] H; [done|].
  intros k1 k2 c1 c2. rewrite Hc', !lookup_insert.
  repeat case_decide; intros; simplify_eq; try done.
  by apply (H k1 k2 c1 c2).
Qed.

(** As [views.py] stands, every view keeps the property from any store
    that has it, reachable or not. *)
Lemma urlpatterns_as_written_preserves strftime route request w :
  at_most_one_active (db w) →
  at_most_one_active (db (urlpatterns views_globals strftime route request w).2).
Proof.
  intros Hinv. destruct route as [k | k | cid | cid | | uid | uid]; cbn [urlpatterns].
  - by rewrite checkout_resource_as_written_db.
  - unfold_views.
    destruct (user request) as [patron|]; proj; [|done].
    explore; done.
  - apply (at_most_one_active_return (db w) _ cid); [apply return_resource_effect | done].
  - apply (at_most_one_active_return (db w) _ cid);
      [apply staff_process_return_effect | done].
  - unfold_views.
    destruct (user request) as [actor|]; proj; [|done].
    destruct (User.is_staff_user (row actor)); proj; done.
  - unfold_views.
    destruct (user request) as [actor|]; proj; [|done].
    destruct (User.is_admin_user (row actor)); proj; [|done].
    explore; done.
  - unfold_views.
    destruct (user request) as [actor|]; proj; [|done].
    destruct (User.is_admin_user (row actor)); proj; [|done].
    explore; done.
Qed.

(** C5. In every world that requests lead to, one after the other, from
    a store with nothing on loan, each resource has at most one
    [ACTIVE] checkout; and from such a world every request to a writing
    view (checkout, return by patron or staff, reserve, promote,
    deactivate, report) again leads to a world where this holds. This
    is so for the module as it stands and for any binding of its
    global names. For the module as it stands, every such request
    keeps the property from any store that has it. *)
Theorem C5_at_most_one_active globals strftime w :
  reachable globals strftime w →
  at_most_one_active (db w)
  ∧ (∀ route request,
       at_most_one_active (db (urlpatterns globals strftime route request w).2))
  ∧ (∀ w' route request,
       at_most_one_active (db w') →
       at_most_one_active (db (urlpatterns views_globals strftime route request w').2)).
Proof.
  intros Hreach. split_and!.
  - by destruct (reachable_consistent globals strftime w Hreach).
  - intros route request.
    by destruct (urlpatterns_consistent globals strftime route request w
                   (reachable_consistent globals strftime w Hreach)).
  - intros w' route request. apply urlpatterns_as_written_preserves.
Qed.

(** * Worked examples

    Each property above that rests on assumptions is applied here to
    the small library, with the assumptions checked by evaluation. *)


(** Alice returns the book; Bob, staff, then tries to process the
    return again, and so does Alice: both are turned down and the one
    return record stays alone. *)
Lemma C3_return_not_active_example :
  let w1 := (return_resource (as_user alice) 1%nat (at_time (timedelta 19) on_loan)).2 in
  return_records on_loan 1%nat = ∅
  ∧ return_records (db w1) 1%nat ≠ ∅
  ∧ checkouts (db w1) !! 1%nat = Some (loan Checkout.STATUS_RETURNED)
  ∧ (db (staff_process_return (as_user bob) 1%nat w1).2 = db w1
     ∧ rejected w1 (staff_process_return (as_user bob) 1%nat w1)
     ∧ size (return_records (db (staff_process_return (as_user bob) 1%nat w1).2) 1%nat)
       = 1%nat)
  ∧ (db (return_resource (as_user alice) 1%nat w1).2 = db w1
     ∧ rejected w1 (return_resource (as_user alice) 1%nat w1)).
Proof.
  cbv zeta. destruct C3_return_not_active as [Hnot Hsecond].
  set (w := at_time (timedelta 19) on_loan).
  set (w1 := (return_resource (as_user alice) 1%nat w).2).
  assert (Hnone : return_records on_loan 1%nat = ∅) by reflexivity.
  assert (Hfiled : return_records (db w1) 1%nat ≠ ∅).
  { intros H. apply (f_equal (λ m, m !! 1%nat)) in H. vm_compute in H. discriminate H. }
  assert (Hlook : checkouts (db w1) !! 1%nat = Some (loan Checkout.STATUS_RETURNED))
    by (vm_compute; reflexivity).
  destruct (Hsecond return_resource staff_process_return w (as_user alice) (as_user bob)
              1%nat) with (w2 := w1) as (Hdb2 & Hrej2 & Hone);
    [repeat constructor | repeat constructor | exact Hnone | exact Hfiled | reflexivity |].
  destruct (Hnot return_resource w1 (as_user alice) 1%nat (loan Checkout.STATUS_RETURNED))
    as (Hdb1 & Hrej1); [repeat constructor | exact Hlook | discriminate |].
  split_and!; assumption.
Defined.

(** Alice holds nine [PENDING] reservations and reserves the book that
    is on loan: the tenth is placed; her next attempt is turned down. *)
Lemma C4_reservation_cap_example :
  let w := at_time 0 nine_pending in
  let result := reserve_resource (as_user alice) 7%nat w in
  pending_count (db w) (pk alice) = 9%nat
  ∧ Resource.status <$> resources (db w) !! 7%nat = Some Resource.STATUS_CHECKED_OUT
  ∧ result.1 = Returned (redirect "patron_dashboard" None)
  ∧ pending_count (db result.2) (pk alice) = 10%nat
  ∧ db (reserve_resource (as_user alice) 7%nat result.2).2 = db result.2
  ∧ rejected result.2 (reserve_resource (as_user alice) 7%nat result.2).
Proof.
  cbv zeta.
  set (w := at_time 0 nine_pending).
  assert (Hnine : pending_count (db w) (pk alice) = 9%nat) by (vm_compute; reflexivity).
  assert (Hle : (pending_count (db w) (pk alice) ≤ 9)%nat) by (rewrite Hnine; lia).
  destruct (C4_reservation_cap w (as_user alice) alice 7%nat eq_refl) as (_ & _ & Hplaced).
  destruct (Hplaced Hle (book Resource.STATUS_CHECKED_OUT) eq_refl)
    as (Hres & _ & _ & Hcount & Hnext); [discriminate|].
  destruct (Hnext Hnine (as_user alice) 7%nat
              (reserve_resource (as_user alice) 7%nat w).2 eq_refl eq_refl) as [Hdb Hrej].
  rewrite Hnine in Hcount.
  split_and!; [exact Hnine | reflexivity | exact Hres | exact Hcount | exact Hdb | exact Hrej].
Defined.

(** With [timedelta] bound, Alice's checkout of the book leads to a
    world with one [ACTIVE] checkout; the property holds there and
    after any further request. *)
Lemma C5_at_most_one_active_example :
  let globals := "timedelta" :: views_globals in
  let w1 := (urlpatterns globals sample_strftime (url_checkout_resource 7) (as_user alice)
               (at_time 0 (library Resource.STATUS_AVAILABLE))).2 in
  reachable globals sample_strftime w1
  ∧ Checkout.status <$> checkouts (db w1) !! 1%nat = Some Checkout.STATUS_ACTIVE
  ∧ at_most_one_active (db w1)
  ∧ ∀ route request,
      at_most_one_active (db (urlpatterns globals sample_strftime route request w1).2).
Proof.
  cbv zeta.
  assert (Hreach : reachable ("timedelta" :: views_globals) sample_strftime
            (urlpatterns ("timedelta" :: views_globals) sample_strftime
               (url_checkout_resource 7) (as_user alice)
               (at_time 0 (library Resource.STATUS_AVAILABLE))).2).
  { apply reachable_request, reachable_initial. intros k c H.
    unfold at_time, library in H. proj_in H. rewrite lookup_empty in H. discriminate H. }
  split; [exact Hreach|]. split; [vm_compute; reflexivity|].
  destruct (C5_at_most_one_active _ _ _ Hreach) as (Hnow & Hnext & _).
  split; [exact Hnow | exact Hnext].
Defined.

(** Alice asks to reserve the book while it is available. *)
Lemma C7_reserve_available_example :
  let w := at_time 0 (library Resource.STATUS_AVAILABLE) in
  let result := reserve_resource (as_user alice) 7%nat w in
  (pending_count (db w) (pk alice) < MAX_ACTIVE_RESERVATIONS_PER_PATRON)%nat
  ∧ result.1 = Returned (redirect "resource_detail" (Some 7%nat))
  ∧ db result.2 = db w
  ∧ reservations (db result.2) = ∅
  ∧ resources (db result.2) !! 7%nat = Some (book Resource.STATUS_AVAILABLE)
  ∧ flashed w result.2
    = [(info, "Resource is available. Consider checking it out instead.")].
Proof.
  cbv zeta.
  assert (Hn : (pending_count (db (at_time 0 (library Resource.STATUS_AVAILABLE))) (pk alice)
                < MAX_ACTIVE_RESERVATIONS_PER_PATRON)%nat) by (vm_compute; lia).
  split; [exact Hn|].
  exact (C7_reserve_available (at_time 0 (library Resource.STATUS_AVAILABLE))
           (as_user alice) alice 7%nat (book Resource.STATUS_AVAILABLE)
           eq_refl eq_refl eq_refl Hn).
Defined.

(** Carol, the admin, promotes Alice, and then once more. *)
Lemma C8_promote_idempotent_example :
  let w := at_time 0 (library Resource.STATUS_AVAILABLE) in
  let w1 := (admin_promote_to_staff (as_user carol) 1%nat w).2 in
  User.role (row carol) = User.ROLE_ADMIN
  ∧ User.role <$> users (db w) !! 1%nat = Some User.ROLE_PATRON
  ∧ User.role <$> users (db w1) !! 1%nat = Some User.ROLE_STAFF
  ∧ db (admin_promote_to_staff (as_user carol) 1%nat w1).2 = db w1.
Proof.
  cbv zeta.
  destruct (C8_promote_idempotent (at_time 0 (library Resource.STATUS_AVAILABLE))
              (as_user carol) carol 1%nat (row alice) eq_refl eq_refl eq_refl)
    as (_ & Hrole & Hagain).
  split_and!; [reflexivity | reflexivity | exact Hrole |].
  exact (Hagain (as_user carol) _ eq_refl).
Defined.

(** Alice reserves the book while it is lost. *)
Lemma C9_reserve_lost_example :
  let w := at_time 0 (library Resource.STATUS_LOST) in
  let result := reserve_resource (as_user alice) 7%nat w in
  Resource.status <$> resources (db w) !! 7%nat = Some Resource.STATUS_LOST
  ∧ result.1 = Returned (redirect "patron_dashboard" None)
  ∧ reservations (db result.2) = {[ 1%nat := new_reservation 1 7 0 ]}
  ∧ Resource.status <$> resources (db result.2) !! 7%nat = Some Resource.STATUS_RESERVED.
Proof.
  cbv zeta.
  assert (Hn : (pending_count (db (at_time 0 (library Resource.STATUS_LOST))) (pk alice)
                < MAX_ACTIVE_RESERVATIONS_PER_PATRON)%nat) by (vm_compute; lia).
  destruct (C9_reserve_lost (at_time 0 (library Resource.STATUS_LOST))
              (as_user alice) alice 7%nat (book Resource.STATUS_LOST)
              eq_refl eq_refl eq_refl Hn) as (Hres & Hrsv & _ & _ & _ & Hstatus).
  split_and!; [reflexivity | exact Hres | | exact Hstatus].
  rewrite Hrsv. reflexivity.
Defined.

(** Alice returns the book after Bob reserved it: the book goes from
    [RESERVED] to [AVAILABLE] and Bob's reservation stays [PENDING]. *)
Lemma C10_return_sets_available_example :
  let w := at_time (timedelta 3) reserved_on_loan in
  let w1 := (return_resource (as_user alice) 1%nat w).2 in
  Resource.status <$> resources (db w) !! 7%nat = Some Resource.STATUS_RESERVED
  ∧ Resource.status <$> resources (db w1) !! 7%nat = Some Resource.STATUS_AVAILABLE
  ∧ reservations (db w1) = reservations (db w)
  ∧ Reservation.status <$> reservations (db w1) !! 1%nat = Some Reservation.STATUS_PENDING.
Proof.
  cbv zeta.
  set (w := at_time (timedelta 3) reserved_on_loan).
  assert (Hco : checkouts (db w) !! 1%nat = Some (loan Checkout.STATUS_ACTIVE))
    by (vm_compute; reflexivity).
  assert (Hnone : return_records (db w) 1%nat = ∅) by (vm_compute; reflexivity).
  assert (Hres : resources (db w) !! Checkout.resource (loan Checkout.STATUS_ACTIVE)
                 = Some (book Resource.STATUS_RESERVED)) by (vm_compute; reflexivity).
  destruct (C10_return_sets_available w (as_user alice) alice 1%nat
              (loan Checkout.STATUS_ACTIVE) (book Resource.STATUS_RESERVED)
              eq_refl Hco eq_refl Hnone Hres) as (Hself & _ & _ & Hrsv).
  assert (Hsame : reservations (db (return_resource (as_user alice) 1%nat w).2)
                  = reservations (db w)).
  { apply (Hrsv return_resource). repeat constructor. }
  split_and!.
  - vm_compute; reflexivity.
  - rewrite (Hself eq_refl). cbn [Checkout.resource loan]. rewrite lookup_insert_eq.
    reflexivity.
  - exact Hsame.
  - rewrite Hsame. vm_compute; reflexivity.
Defined.

(** * Further properties of the views *)

Ltac unfold_pages :=
  cbv beta iota zeta delta
    [patron_dashboard resource_detail staff_dashboard admin_staff_list
     login_required_page user_passes_test_page staff_required_page admin_required_page
     query request_user bind ret raise timezone_now get_object_or_404
     User_objects Resource_objects Checkout_objects Return_objects
     Reservation_objects Notification_objects Report_objects is_authenticated].

(** ** Who may call what *)

(** X1. A request that the gate of its route does not let through (no
    login; a staff route and a role other than [STAFF], [ADMIN]
    included; an admin route and a role other than [ADMIN]) is sent to
    the login page and nothing happens: the store, the clock and the
    messages are as before. *)
Theorem gates_turn_away globals strftime route request w :
  admitted route (user request) = false →
  urlpatterns globals strftime route request w = (Returned redirect_to_login, w).
Proof.
  intros H. destruct route; cbn [urlpatterns]; unfold_views;
    destruct (user request) as [p|]; cbn in H; try done;
    unfold User.is_staff_user, User.is_admin_user; by rewrite H.
Qed.

Lemma gates_turn_away_example :
  admitted (url_staff_process_return 1) (user (as_user carol)) = false
  ∧ urlpatterns views_globals sample_strftime (url_staff_process_return 1) (as_user carol)
      (at_time 0 on_loan)
    = (Returned redirect_to_login, at_time 0 on_loan).
Proof.
  split; [reflexivity|].
  apply (gates_turn_away views_globals sample_strftime (url_staff_process_return 1)
           (as_user carol) (at_time 0 on_loan)). reflexivity.
Defined.

(** ** The guards of [checkout_resource] *)

(** X2. [checkout_resource] tests the role first, then looks the
    resource up, then tests its status. A requester who is not a patron
    gets the error message even for a resource that does not exist; a
    patron gets not-found for a missing resource and the error message
    for one that is not [AVAILABLE]. In all three cases the store and
    the clock are untouched, whether or not [timedelta] is bound. *)
Theorem checkout_resource_guards globals strftime request patron k w :
  user request = Some patron →
  let result := checkout_resource globals strftime request k w in
  let answered text :=
    (Returned (redirect "resource_detail" (Some k)),
     {| db := db w; clock := clock w; ticks := ticks w;
        flash := flash w ++ [(error, text)] |}) in
  (User.role (row patron) ≠ User.ROLE_PATRON →
     result = answered "Only patrons can checkout resources.")
  ∧ (User.role (row patron) = User.ROLE_PATRON →
     resources (db w) !! k = None → result = (Raised Http404, w))
  ∧ (User.role (row patron) = User.ROLE_PATRON →
     ∀ r, resources (db w) !! k = Some r →
          Resource.status r ≠ Resource.STATUS_AVAILABLE →
          result = answered "Resource is not available for checkout.").
Proof.
  intros Hu result answered. subst result answered. split_and!.
  - intros Hrole. unfold_views. proj. rewrite Hu. proj.
    unfold User.is_patron. by rewrite bool_decide_false.
  - intros Hrole Hr. unfold_views. proj. rewrite Hu. proj.
    unfold User.is_patron. rewrite Hrole, bool_decide_true by done. proj.
    by rewrite Hr.
  - intros Hrole r Hr Hs. unfold_views. proj. rewrite Hu. proj.
    unfold User.is_patron. rewrite Hrole, bool_decide_true by done. proj.
    rewrite Hr. proj. by rewrite bool_decide_true.
Qed.

Lemma checkout_resource_guards_example :
  checkout_resource views_globals sample_strftime (as_user bob) 99%nat (at_time 0 on_loan)
  = (Returned (redirect "resource_detail" (Some 99%nat)),
     {| db := on_loan; clock := 0; ticks := [];
        flash := [(error, "Only patrons can checkout resources.")] |})
  ∧ checkout_resource views_globals sample_strftime (as_user alice) 99%nat (at_time 0 on_loan)
    = (Raised Http404, at_time 0 on_loan)
  ∧ checkout_resource views_globals sample_strftime (as_user alice) 7%nat (at_time 0 on_loan)
    = (Returned (redirect "resource_detail" (Some 7%nat)),
       {| db := on_loan; clock := 0; ticks := [];
          flash := [(error, "Resource is not available for checkout.")] |}).
Proof.
  destruct (checkout_resource_guards views_globals sample_strftime (as_user bob) bob 99%nat
              (at_time 0 on_loan) eq_refl) as (Hbob & _ & _).
  destruct (checkout_resource_guards views_globals sample_strftime (as_user alice) alice
              99%nat (at_time 0 on_loan) eq_refl) as (_ & Hmissing & _).
  destruct (checkout_resource_guards views_globals sample_strftime (as_user alice) alice
              7%nat (at_time 0 on_loan) eq_refl) as (_ & _ & Hbusy).
  split_and!.
  - apply Hbob. discriminate.
  - apply Hmissing; reflexivity.
  - apply (Hbusy eq_refl (book Resource.STATUS_CHECKED_OUT)); [reflexivity | discriminate].
Defined.

(** ** Notifications *)

(** X3. [create_notification] adds one unread notification for the
    user, stamped with one reading of the clock, under a key that was
    free: the notifications that were there are still there, their
    number grows by one, and no other table changes. *)
Theorem create_notification_appends u ntype message w :
  let result := create_notification u ntype message w in
  let k := next_pk (notifications (db w)) in
  result.1 = Returned ()
  ∧ notifications (db w) ⊆ notifications (db result.2)
  ∧ size (notifications (db result.2)) = S (size (notifications (db w)))
  ∧ notifications (db result.2) !! k
    = Some {| Notification.user := pk u; Notification.notification_type := ntype;
              Notification.message := message;
              Notification.created_at := clock w + hd 0 (ticks w);
              Notification.is_read := false |}
  ∧ db result.2
    = with_notifications (λ _, notifications (db result.2)) (db w).
Proof.
  cbv zeta. unfold_views. proj. split_and!.
  - done.
  - apply insert_subseteq, next_pk_fresh.
  - apply map_size_insert_None, next_pk_fresh.
  - by rewrite lookup_insert_eq.
  - done.
Qed.

Lemma fine_at_pos now c :
  fine_at now c > 0 ↔ timedelta 1 ≤ now - Checkout.due_date c.
Proof.
  unfold fine_at, whole_days, timedelta. pose proof microseconds_per_day_pos as Hpos.
  case_bool_decide as Hle.
  - split; lia.
  - rewrite Z.quot_div_nonneg by lia. rewrite Z.mul_1_r, Z.mul_1_l. split.
    + intros Hfine.
      destruct (decide (microseconds_per_day ≤ now - Checkout.due_date c)); [done|].
      rewrite Z.div_small in Hfine by lia. lia.
    + intros Hday.
      assert (1 ≤ (now - Checkout.due_date c) / microseconds_per_day); [|lia].
      apply Z.div_le_lower_bound; lia.
Qed.

(** X4. A self-service return that goes through, served at the instant
    [now], leaves the patron exactly one new notification: of type
    [OVERDUE] when [now] is at least one whole day past the due date,
    of type [EVENT] otherwise. So a return that is late by less than a
    day carries no fine and is reported as an ordinary return. *)
Theorem return_resource_notifies w request actor checkout_id c r now :
  served_at now w →
  user request = Some actor →
  checkouts (db w) !! checkout_id = Some c →
  Checkout.patron c = pk actor →
  Checkout.status c = Checkout.STATUS_ACTIVE →
  return_records (db w) checkout_id = ∅ →
  resources (db w) !! Checkout.resource c = Some r →
  let late := bool_decide (timedelta 1 ≤ now - Checkout.due_date c) in
  notifications (db (return_resource request checkout_id w).2)
  = <[next_pk (notifications (db w)) :=
        {| Notification.user := pk actor;
           Notification.notification_type :=
             if late then Notification.TYPE_OVERDUE else Notification.TYPE_EVENT;
           Notification.message :=
             if late
             then "Returned '" +:+ Resource.title r +:+ "' with an overdue fine of $"
                    +:+ format_2f (fine_at now c) +:+ "."
             else "Successfully returned '" +:+ Resource.title r +:+ "'.";
           Notification.created_at := now;
           Notification.is_read := false |}]> (notifications (db w))
  ∧ (late = false → fine_at now c = 0).
Proof.
  intros [Hc Ht] Hu Hco Hp Hs Hr Hres late. destruct w as [d c0 t f].
  cbn in Hc, Ht. subst c0 t. proj_in Hco. proj_in Hr. proj_in Hres.
  pose proof (fine_at_pos now c) as Hfine. split.
  - unfold_views_upto_fine. proj. rewrite Hu. proj. rewrite Hco. proj.
    rewrite (bool_decide_true _ Hp). proj.
    rewrite bool_decide_false by (intros ?; done). proj.
    rewrite calculate_overdue_fine_served_at by done. cbn [hd tail]. proj.
    rewrite (return_records_none _ _ Hr), bool_decide_true by done. proj.
    rewrite Hres. proj. rewrite !Z.add_0_r. subst late.
    destruct (decide (timedelta 1 ≤ now - Checkout.due_date c)) as [Hlate|Hlate].
    + rewrite (bool_decide_true _ Hlate), bool_decide_true by (by apply Hfine).
      proj. cbn [hd tail]. by rewrite ?Z.add_0_r.
    + rewrite (bool_decide_false _ Hlate), bool_decide_false by (by rewrite Hfine).
      proj. cbn [hd tail]. by rewrite ?Z.add_0_r.
  - subst late. intros Hlate%bool_decide_eq_false.
    assert (0 ≤ fine_at now c); [|lia].
    unfold fine_at, whole_days. pose proof microseconds_per_day_pos.
    case_bool_decide; [done|]. rewrite Z.quot_div_nonneg by lia.
    assert (0 ≤ (now - Checkout.due_date c) / microseconds_per_day); [|lia].
    apply Z.div_pos; lia.
Qed.

(** Alice returns the book 23 hours late: no fine, an ordinary
    notification. *)
Lemma return_resource_notifies_example :
  let now := timedelta 14 + 23 * 3600 * 1000000 in
  let w := at_time now on_loan in
  Checkout.due_date (loan Checkout.STATUS_ACTIVE) < now
  ∧ notifications (db (return_resource (as_user alice) 1%nat w).2)
    = {[ 1%nat := {| Notification.user := 1;
                     Notification.notification_type := Notification.TYPE_EVENT;
                     Notification.message := "Successfully returned 'SICP'.";
                     Notification.created_at := now;
                     Notification.is_read := false |} ]}
  ∧ fine_at now (loan Checkout.STATUS_ACTIVE) = 0.
Proof.
  cbv zeta. split; [reflexivity|].
  destruct (return_resource_notifies
              (at_time (timedelta 14 + 23 * 3600 * 1000000) on_loan) (as_user alice) alice
              1%nat (loan Checkout.STATUS_ACTIVE) (book Resource.STATUS_CHECKED_OUT)
              (timedelta 14 + 23 * 3600 * 1000000))
    as [Hn Hfine]; try reflexivity.
  { split; reflexivity. }
  split; [rewrite Hn; reflexivity | apply Hfine; reflexivity].
Defined.

(** X5. A return processed by staff, served at the instant [now],
    leaves its one notification to the patron of the checkout, not to
    the staff member who made the request; its type follows the same
    rule. *)
Theorem staff_process_return_notifies w request actor checkout_id c r p now :
  served_at now w →
  user request = Some actor →
  User.role (row actor) = User.ROLE_STAFF →
  checkouts (db w) !! checkout_id = Some c →
  Checkout.status c = Checkout.STATUS_ACTIVE →
  return_records (db w) checkout_id = ∅ →
  resources (db w) !! Checkout.resource c = Some r →
  users (db w) !! Checkout.patron c = Some p →
  let late := bool_decide (timedelta 1 ≤ now - Checkout.due_date c) in
  notifications (db (staff_process_return request checkout_id w).2)
  = <[next_pk (notifications (db w)) :=
        {| Notification.user := Checkout.patron c;
           Notification.notification_type :=
             if late then Notification.TYPE_OVERDUE else Notification.TYPE_EVENT;
           Notification.message :=
             "Return processed by staff for '" +:+ Resource.title r +:+ "'. Fine: $"
               +:+ format_2f (fine_at now c) +:+ ".";
           Notification.created_at := now;
           Notification.is_read := false |}]> (notifications (db w)).
Proof.
  intros [Hc Ht] Hu Hrole Hco Hs Hr Hres Hpat late. destruct w as [d c0 t f].
  cbn in Hc, Ht. subst c0 t. proj_in Hco. proj_in Hr. proj_in Hres. proj_in Hpat.
  pose proof (fine_at_pos now c) as Hfine.
  unfold_views_upto_fine. proj. rewrite Hu. proj.
  unfold User.is_staff_user. rewrite Hrole, bool_decide_true by done. proj.
  rewrite Hco. proj.
  rewrite bool_decide_false by (intros ?; done). proj.
  rewrite calculate_overdue_fine_served_at by done. cbn [hd tail]. proj.
  rewrite (return_records_none _ _ Hr), bool_decide_true by done. proj.
  rewrite Hres. proj. rewrite Hpat. proj. rewrite !Z.add_0_r. subst late.
  destruct (decide (timedelta 1 ≤ now - Checkout.due_date c)) as [Hlate|Hlate].
  - rewrite (bool_decide_true _ Hlate), bool_decide_true by (by apply Hfine).
    proj. cbn [hd tail]. by rewrite ?Z.add_0_r.
  - rewrite (bool_decide_false _ Hlate), bool_decide_false by (by rewrite Hfine).
    proj. cbn [hd tail]. by rewrite ?Z.add_0_r.
Qed.

(** Bob processes the return of Alice's loan six days late: the
    notification is Alice's. *)
Lemma staff_process_return_notifies_example :
  let now := timedelta 20 in
  Notification.user
    <$> notifications (db (staff_process_return (as_user bob) 1%nat (at_time now on_loan)).2)
        !! 1%nat
  = Some (pk alice)
  ∧ Notification.notification_type
      <$> notifications (db (staff_process_return (as_user bob) 1%nat (at_time now on_loan)).2)
          !! 1%nat
    = Some Notification.TYPE_OVERDUE.
Proof.
  cbv zeta.
  rewrite (staff_process_return_notifies (at_time (timedelta 20) on_loan) (as_user bob) bob
             1%nat (loan Checkout.STATUS_ACTIVE) (book Resource.STATUS_CHECKED_OUT)
             (row alice) (timedelta 20)); try reflexivity.
  - split; reflexivity.
  - split; reflexivity.
Defined.

(** ** Deactivating staff *)

(** X6. Behind the admin gate, [admin_deactivate_staff] answers
    not-found, and changes nothing, when the target does not exist or
    is stored with a role other than [STAFF]. *)
Theorem admin_deactivate_staff_not_staff w request admin user_id :
  user request = Some admin →
  User.role (row admin) = User.ROLE_ADMIN →
  (∀ u, users (db w) !! user_id = Some u → User.role u ≠ User.ROLE_STAFF) →
  admin_deactivate_staff request user_id w = (Raised Http404, w).
Proof.
  intros Hu Hrole Hnot. unfold_views. proj. rewrite Hu. proj.
  unfold User.is_admin_user. rewrite Hrole, bool_decide_true by done. proj.
  destruct (users (db w) !! user_id) as [u|] eqn:Hlook; [|done].
  by rewrite bool_decide_false by by apply Hnot.
Qed.

Lemma admin_deactivate_staff_not_staff_example :
  admin_deactivate_staff (as_user carol) 1%nat (at_time 0 on_loan)
  = (Raised Http404, at_time 0 on_loan)
  ∧ admin_deactivate_staff (as_user carol) 42%nat (at_time 0 on_loan)
    = (Raised Http404, at_time 0 on_loan).
Proof.
  split.
  - apply (admin_deactivate_staff_not_staff (at_time 0 on_loan) (as_user carol) carol 1%nat);
      [reflexivity | reflexivity |].
    intros u Hu. vm_compute in Hu. injection Hu as <-. discriminate.
  - apply (admin_deactivate_staff_not_staff (at_time 0 on_loan) (as_user carol) carol 42%nat);
      [reflexivity | reflexivity |].
    intros u Hu. vm_compute in Hu. discriminate Hu.
Defined.

Lemma admin_deactivate_staff_db w request admin user_id u :
  user request = Some admin →
  User.role (row admin) = User.ROLE_ADMIN →
  users (db w) !! user_id = Some u →
  User.role u = User.ROLE_STAFF →
  db (admin_deactivate_staff request user_id w).2
  = with_users (<[user_id := User.set_is_active false u]>) (db w).
Proof.
  intros Hu Hrole Hlook Hstaff. unfold_views. proj. rewrite Hu. proj.
  unfold User.is_admin_user. rewrite Hrole, bool_decide_true by done. proj.
  rewrite Hlook. by rewrite bool_decide_true.
Qed.

(** X7. Behind the admin gate, deactivating a user stored with role
    [STAFF] stores that user with [is_active] false and the same name
    and role, and changes no other row. Doing it again, whoever asks,
    leaves the store as it is. *)
Theorem admin_deactivate_staff_effect w request admin user_id u :
  user request = Some admin →
  User.role (row admin) = User.ROLE_ADMIN →
  users (db w) !! user_id = Some u →
  User.role u = User.ROLE_STAFF →
  let w1 := (admin_deactivate_staff request user_id w).2 in
  db w1 = with_users (<[user_id := User.set_is_active false u]>) (db w)
  ∧ users (db w1) !! user_id
    = Some {| User.username := User.username u; User.role := User.ROLE_STAFF;
              User.is_active := false |}
  ∧ (∀ request' w2, db w2 = db w1 →
       db (admin_deactivate_staff request' user_id w2).2 = db w1).
Proof.
  intros Hu Hrole Hlook Hstaff w1.
  assert (Hdb : db w1 = with_users (<[user_id := User.set_is_active false u]>) (db w)).
  { by apply (admin_deactivate_staff_db w request admin). }
  assert (Hlook1 : users (db w1) !! user_id = Some (User.set_is_active false u)).
  { rewrite Hdb. proj. by rewrite lookup_insert_eq. }
  split_and!.
  - done.
  - rewrite Hlook1. unfold User.set_is_active. by rewrite Hstaff.
  - intros request' w2 Hw2. rewrite <- Hw2. unfold_views.
    destruct (user request') as [actor|]; proj; [|done].
    destruct (User.is_admin_user (row actor)); proj; [|done].
    rewrite Hw2, Hlook1. proj. rewrite bool_decide_true by done. proj.
    rewrite <- Hw2. apply with_users_insert_id. by rewrite Hw2.
Qed.

(** Carol deactivates Bob, then once more. *)
Lemma admin_deactivate_staff_effect_example :
  let w := at_time 0 on_loan in
  let w1 := (admin_deactivate_staff (as_user carol) 2%nat w).2 in
  users (db w1) !! 2%nat
  = Some {| User.username := "bob"; User.role := User.ROLE_STAFF; User.is_active := false |}
  ∧ db (admin_deactivate_staff (as_user carol) 2%nat w1).2 = db w1.
Proof.
  cbv zeta.
  destruct (admin_deactivate_staff_effect (at_time 0 on_loan) (as_user carol) carol 2%nat
              (row bob) eq_refl eq_refl eq_refl eq_refl) as (_ & Hrow & Hagain).
  split; [exact Hrow | exact (Hagain (as_user carol) _ eq_refl)].
Defined.

(** X8. Promotion makes any existing user a target for deactivation:
    after an admin promoted the user, whatever the role was, an admin's
    deactivation of the same user goes through and leaves the user
    stored as inactive staff. *)
Theorem promote_then_deactivate w request request' admin admin' user_id u :
  user request = Some admin → User.role (row admin) = User.ROLE_ADMIN →
  user request' = Some admin' → User.role (row admin') = User.ROLE_ADMIN →
  users (db w) !! user_id = Some u →
  let w1 := (admin_promote_to_staff request user_id w).2 in
  let result := admin_deactivate_staff request' user_id w1 in
  result.1 = Returned (redirect "admin_staff_list" None)
  ∧ users (db result.2)
    = <[user_id := {| User.username := User.username u; User.role := User.ROLE_STAFF;
                      User.is_active := false |}]> (users (db w)).
Proof.
  intros Hu Hrole Hu' Hrole' Hlook w1 result.
  assert (Hdb : db w1 = with_users (<[user_id := User.set_role User.ROLE_STAFF u]>) (db w)).
  { by apply (admin_promote_to_staff_db w request admin). }
  subst result. unfold_views. proj. rewrite Hu'. proj.
  unfold User.is_admin_user. rewrite Hrole', bool_decide_true by done. proj.
  fold w1. rewrite Hdb. proj. rewrite lookup_insert_eq. proj.
  rewrite bool_decide_true by done. proj.
  split; [done|]. rewrite Hdb. proj. by rewrite insert_insert_eq.
Qed.

(** Carol promotes Alice, a patron, and deactivates her. *)
Lemma promote_then_deactivate_example :
  let w1 := (admin_promote_to_staff (as_user carol) 1%nat (at_time 0 on_loan)).2 in
  users (db (admin_deactivate_staff (as_user carol) 1%nat w1).2) !! 1%nat
  = Some {| User.username := "alice"; User.role := User.ROLE_STAFF;
            User.is_active := false |}.
Proof.
  cbv zeta.
  destruct (promote_then_deactivate (at_time 0 on_loan) (as_user carol) (as_user carol)
              carol carol 1%nat (row alice) eq_refl eq_refl eq_refl eq_refl eq_refl)
    as [_ Husers].
  rewrite Husers. by rewrite lookup_insert_eq.
Defined.

(** ** The popular-resources report *)

#[local] Instance by_count_desc_total : Total by_count_desc.
Proof. intros a b. unfold by_count_desc. lia. Qed.

#[local] Instance by_count_desc_trans : Transitive by_count_desc.
Proof. intros a b c. unfold by_count_desc. lia. Qed.

#[local] Instance by_count_desc_then_pk_total : Total by_count_desc_then_pk.
Proof. intros a b. unfold by_count_desc_then_pk. lia. Qed.

#[local] Instance by_count_desc_then_pk_trans : Transitive by_count_desc_then_pk.
Proof. intros a b c. unfold by_count_desc_then_pk. lia. Qed.

(** X9. The ranking [popular_resources d n] has [n] entries, or as many
    as there are resources if that is less; it is in order of
    checkout count, largest first; every entry is a stored resource
    with its own count; and a stored resource is either listed or has
    no more checkouts than any entry that is. *)
Theorem popular_resources_ranked d n :
  let top := popular_resources d n in
  length top = min n (size (resources d))
  ∧ StronglySorted by_count_desc top
  ∧ (∀ r c, (r, c) ∈ top → ∃ k, resources d !! k = Some r ∧ c = checkout_count d k)
  ∧ (∀ k r, resources d !! k = Some r →
       (r, checkout_count d k) ∈ top
       ∨ ∀ x, x ∈ top → (checkout_count d k ≤ x.2)%nat).
Proof.
  cbv zeta. unfold popular_resources.
  set (counted := (λ kr : nat * Resource.t, (kr.1, (kr.2, checkout_count d kr.1)))
                    <$> map_to_list (resources d)).
  set (sorted := merge_sort by_count_desc_then_pk counted).
  assert (Hperm : sorted ≡ₚ counted) by apply merge_sort_Permutation.
  assert (Hsorted : StronglySorted by_count_desc
                      (take n (snd <$> sorted) ++ drop n (snd <$> sorted))).
  { rewrite take_drop.
    apply (StronglySorted_fmap snd by_count_desc_then_pk by_count_desc).
    - intros x y. unfold by_count_desc_then_pk, by_count_desc. lia.
    - apply StronglySorted_merge_sort; apply _. }
  assert (Hin_counted : ∀ r c, (r, c) ∈ snd <$> sorted ↔
            ∃ k, resources d !! k = Some r ∧ c = checkout_count d k).
  { intros r c. rewrite list_elem_of_fmap. split.
    - intros ([k0 [r0 c0]] & Heq & Hin). cbn in Heq. injection Heq as <- <-.
      rewrite Hperm in Hin. apply list_elem_of_fmap in Hin as ([k r'] & Heq & Hin).
      cbn in Heq. injection Heq as -> -> ->. apply elem_of_map_to_list in Hin.
      by exists k.
    - intros (k & Hk & ->). exists (k, (r, checkout_count d k)). split; [done|].
      rewrite Hperm. apply list_elem_of_fmap. exists (k, r). split; [done|].
      by apply elem_of_map_to_list. }
  split_and!.
  - rewrite length_take, length_fmap, Hperm. unfold counted.
    by rewrite length_fmap, length_map_to_list.
  - by apply StronglySorted_app_1_l in Hsorted.
  - intros r c Hin. apply subseteq_take in Hin. by apply Hin_counted.
  - intros k r Hk.
    assert (Hin : (r, checkout_count d k)
                  ∈ take n (snd <$> sorted) ++ drop n (snd <$> sorted)).
    { rewrite take_drop. apply Hin_counted. by exists k. }
    apply elem_of_app in Hin as [Hin | Hin]; [by left | right].
    intros x Hx.
    apply (StronglySorted_app_1_elem_of _ _ _ x (r, checkout_count d k) Hsorted Hx Hin).
Qed.



Lemma checkout_count_return_effect checkout_id d d' k :
  return_effect checkout_id d d' → checkout_count d' k = checkout_count d k.
Proof.
  intros [-> | (c & record & Hc & _ & _ & _ & _ & Hc' & _)]; [done|].
  unfold checkout_count. rewrite Hc'.
  destruct (decide (Checkout.resource c = k)) as [Hk|Hk].
  - rewrite map_filter_insert_True by done.
    apply map_size_insert_Some. exists c. by apply map_lookup_filter_Some_2.
  - rewrite map_filter_insert_not'; [done | done |].
    intros y Hy. rewrite Hc in Hy. by injection Hy as <-.
Qed.

(** X11. The count behind the ranking takes in every checkout of a
    resource, returned ones too: no call of a return view changes the
    count of any resource. *)
Theorem return_keeps_checkout_count view request checkout_id w k :
  view ∈ return_views →
  checkout_count (db (view request checkout_id w).2) k = checkout_count (db w) k.
Proof.
  intros Hv. apply (checkout_count_return_effect checkout_id).
  by apply return_views_effect.
Qed.

Lemma return_keeps_checkout_count_example :
  checkout_count on_loan 7 = 1%nat
  ∧ checkout_count
      (db (return_resource (as_user alice) 1%nat (at_time (timedelta 3) on_loan)).2) 7
    = 1%nat.
Proof.
  assert (H : checkout_count on_loan 7 = 1%nat) by (vm_compute; reflexivity).
  split; [exact H|].
  rewrite (return_keeps_checkout_count return_resource (as_user alice) 1%nat
             (at_time (timedelta 3) on_loan) 7%nat); [exact H | repeat constructor].
Defined.

(** ** What no request does *)

(** Every path of every writing view, for any requester. *)
Ltac every_path route request :=
  destruct route; cbn [urlpatterns]; unfold_views;
  unfold User.is_patron, User.is_staff_user, User.is_admin_user;
  destruct (user request) as [?actor|]; explore.

(** X12. Return records, reservations, notifications and reports are
    only ever added: after any request to any writing view, every row
    that these four tables held is still there, unchanged. *)
Theorem append_only_tables globals strftime route request w :
  let d' := db (urlpatterns globals strftime route request w).2 in
  returns (db w) ⊆ returns d'
  ∧ reservations (db w) ⊆ reservations d'
  ∧ notifications (db w) ⊆ notifications d'
  ∧ reports (db w) ⊆ reports d'.
Proof.
  cbv zeta. every_path route request;
    (split_and!; first [done | apply insert_subseteq, next_pk_fresh]).
Qed.

Lemma status_only_same (r : Resource.t) : r = Resource.set_status (Resource.status r) r.
Proof. by destruct r. Qed.

Lemma status_only_insert (m : gmap nat Resource.t) k r s k0 r' :
  m !! k = Some r →
  <[k := Resource.set_status s r]> m !! k0 = Some r' →
  ∃ r0, m !! k0 = Some r0 ∧ r' = Resource.set_status (Resource.status r') r0.
Proof.
  intros Hk. rewrite lookup_insert. case_decide as Heq.
  - intros [= <-]. subst k0. exists r. split; [done|]. by destruct r.
  - intros Hk0. exists r'. split; [done | apply status_only_same].
Qed.

(** X13. No request to a writing view adds or removes a user or a
    resource, and of a resource only the status is ever rewritten:
    title, author, type, tags and creation time stay as stored. *)
Theorem catalogue_kept globals strftime route request w :
  let d' := db (urlpatterns globals strftime route request w).2 in
  dom (users d') = dom (users (db w))
  ∧ dom (resources d') = dom (resources (db w))
  ∧ ∀ k r', resources d' !! k = Some r' →
      ∃ r, resources (db w) !! k = Some r
           ∧ r' = Resource.set_status (Resource.status r') r.
Proof.
  cbv zeta. every_path route request; try (by exfalso);
    (split_and!;
     [ first [done | apply dom_insert_lookup_L; eauto]
     | first [done | apply dom_insert_lookup_L; eauto]
     | intros k0 r' Hk0;
       first [ by eapply status_only_insert
             | exists r'; split; [done | apply status_only_same] ] ]).
Qed.

Lemma checkouts_step_same m : checkouts_step m m.
Proof. split; [by left | congruence]. Qed.

Lemma checkouts_step_new m c :
  Checkout.status c = Checkout.STATUS_ACTIVE → checkouts_step m (<[next_pk m := c]> m).
Proof.
  intros Hs. split.
  - intros k c0 Hk. left. rewrite lookup_insert_ne; [done|].
    intros <-. by rewrite next_pk_fresh in Hk.
  - intros k c' Hk. rewrite lookup_insert. case_decide; [|congruence].
    by intros [= <-].
Qed.

Lemma checkouts_step_returned m k c :
  m !! k = Some c → Checkout.status c = Checkout.STATUS_ACTIVE →
  checkouts_step m (<[k := Checkout.set_status Checkout.STATUS_RETURNED c]> m).
Proof.
  intros Hk Hs. split.
  - intros k0 c0 Hk0. rewrite lookup_insert. case_decide; [|by left].
    simplify_eq. by right.
  - intros k0 c' Hk0. rewrite lookup_insert. case_decide; congruence.
Qed.

(** X14. A checkout only ever moves from [ACTIVE] to [RETURNED]. After
    any request to a writing view a checkout that was stored is either
    unchanged or was [ACTIVE] and is now [RETURNED], with patron,
    resource and dates as before; a checkout that is new is [ACTIVE].
    So no view stores [LOST], reopens a returned checkout, moves a
    checkout to another patron or resource, or deletes one. *)
Theorem checkout_lifecycle globals strftime route request w :
  checkouts_step (checkouts (db w))
    (checkouts (db (urlpatterns globals strftime route request w).2)).
Proof.
  every_path route request; try (by exfalso);
    first [ apply checkouts_step_same
          | by apply checkouts_step_new
          | by eapply checkouts_step_returned ].
Qed.

(** X15. Accounts change only through the admin views. After any
    request to a writing view a stored user is unchanged, or the
    request was a promotion of that user let through the admin gate and
    only the role changed, to [STAFF], or it was a deactivation of that
    user let through the admin gate, the user was [STAFF], and only
    [is_active] changed, to false. No view renames a user, raises a
    role to [ADMIN] or reactivates an account. *)
Theorem accounts_change_by_admin_only globals strftime route request w uid u u' :
  users (db w) !! uid = Some u →
  users (db (urlpatterns globals strftime route request w).2) !! uid = Some u' →
  u' = u
  ∨ (route = url_admin_promote_to_staff uid
     ∧ admitted route (user request) = true
     ∧ u' = User.set_role User.ROLE_STAFF u)
  ∨ (route = url_admin_deactivate_staff uid
     ∧ admitted route (user request) = true
     ∧ User.role u = User.ROLE_STAFF
     ∧ u' = User.set_is_active false u).
Proof.
  intros Hu. revert Hu.
  every_path route request; try (by exfalso); intros Hu Hu';
    try (by left; congruence).
  - rewrite lookup_insert in Hu'. case_decide; [|by left; congruence].
    simplify_eq. right; left. split_and!; [done | | done].
    cbn. by rewrite bool_decide_true.
  - rewrite lookup_insert in Hu'. case_decide; [|by left; congruence].
    simplify_eq. right; right. split_and!; [done | | done | done].
    cbn. by rewrite bool_decide_true.
Qed.

(** Carol promotes Alice: Alice's row changes as the second case says;
    Bob's row, like every other, stays. *)
Lemma accounts_change_by_admin_only_example :
  let d' := db (urlpatterns views_globals sample_strftime (url_admin_promote_to_staff 1)
                  (as_user carol) (at_time 0 on_loan)).2 in
  users d' !! 1%nat = Some (User.set_role User.ROLE_STAFF (row alice))
  ∧ users d' !! 2%nat = Some (row bob)
  ∧ (row bob = row bob
     ∨ (url_admin_promote_to_staff 1 = url_admin_promote_to_staff 2
        ∧ admitted (url_admin_promote_to_staff 1) (user (as_user carol)) = true
        ∧ row bob = User.set_role User.ROLE_STAFF (row bob))
     ∨ (url_admin_promote_to_staff 1 = url_admin_deactivate_staff 2
        ∧ admitted (url_admin_promote_to_staff 1) (user (as_user carol)) = true
        ∧ User.role (row bob) = User.ROLE_STAFF
        ∧ row bob = User.set_is_active false (row bob))).
Proof.
  cbv zeta. split; [vm_compute; reflexivity|]. split; [vm_compute; reflexivity|].
  apply (accounts_change_by_admin_only views_globals sample_strftime
           (url_admin_promote_to_staff 1) (as_user carol) (at_time 0 on_loan) 2%nat
           (row bob) (row bob)); vm_compute; reflexivity.
Defined.

(** ** The cap and the one-to-one field as invariants *)

Lemma pending_count_same d d' p :
  reservations d' = reservations d → pending_count d' p = pending_count d p.
Proof.
  intros H. unfold pending_count, objects_filter, Reservation_objects. proj. by rewrite H.
Qed.

Lemma pending_count_insert_other d d' p patron_pk resource_pk t :
  p ≠ patron_pk →
  reservations d'
  = <[next_pk (reservations d) := new_reservation patron_pk resource_pk t]> (reservations d) →
  pending_count d' p = pending_count d p.
Proof.
  intros Hne H. unfold pending_count, objects_filter, Reservation_objects. proj. rewrite H.
  rewrite map_filter_insert_not'; [done | |].
  - cbn. unfold pending_of. cbn. rewrite bool_decide_false by done. done.
  - intros y Hy. by rewrite next_pk_fresh in Hy.
Qed.

(** X16. A request changes a user's number of [PENDING] reservations
    only if it is that user's own reserve request made with fewer than
    10, and then it adds one. So the count of a user who has at most 10
    never passes 10, and no request lowers a count or touches the
    count of anybody else. *)
Theorem pending_count_step globals strftime route request w p :
  let n := pending_count (db w) p in
  let n' := pending_count (db (urlpatterns globals strftime route request w).2) p in
  (n' = n
   ∨ ((n < MAX_ACTIVE_RESERVATIONS_PER_PATRON)%nat ∧ n' = S n
      ∧ ∃ k actor, route = url_reserve_resource k ∧ user request = Some actor
                   ∧ pk actor = p))
  ∧ ((n ≤ MAX_ACTIVE_RESERVATIONS_PER_PATRON)%nat →
     (n' ≤ MAX_ACTIVE_RESERVATIONS_PER_PATRON)%nat).
Proof.
  cbv zeta.
  assert (Hmain :
    pending_count (db (urlpatterns globals strftime route request w).2) p
    = pending_count (db w) p
    ∨ ((pending_count (db w) p < MAX_ACTIVE_RESERVATIONS_PER_PATRON)%nat
       ∧ pending_count (db (urlpatterns globals strftime route request w).2) p
         = S (pending_count (db w) p)
       ∧ ∃ k actor, route = url_reserve_resource k ∧ user request = Some actor
                    ∧ pk actor = p)).
  { every_path route request; try (by exfalso);
      try (by left; apply pending_count_same).
    destruct (decide (p = pk actor)) as [->|Hne].
    - right. rewrite pending_count_fold in *. split_and!.
      + lia.
      + by eapply (pending_count_insert (db w) (pk actor) _ _ (λ _, _)).
      + by eexists _, _.
    - left. by eapply pending_count_insert_other. }
  split; [exact Hmain|]. intros Hn. destruct Hmain as [-> | (Hlt & -> & _)]; lia.
Qed.

Lemma return_records_same d d' checkout_id :
  returns d' = returns d → return_records d' checkout_id = return_records d checkout_id.
Proof.
  intros H. unfold return_records, objects_filter, Return_objects. proj. by rewrite H.
Qed.

Lemma return_records_step checkout_id d d' cid :
  return_effect checkout_id d d' →
  return_records d' cid = return_records d cid
  ∨ (return_records d cid = ∅ ∧ size (return_records d' cid) = 1%nat).
Proof.
  intros [-> | (c & record & _ & _ & Hnone & Hrec & Hret & _)]; [by left|].
  destruct (decide (cid = checkout_id)) as [->|Hne].
  - right. split; [done|].
    unfold return_records, objects_filter, Return_objects in *. proj. proj_in Hnone.
    rewrite Hret, map_filter_insert_True by (cbn; by apply bool_decide_eq_true_2).
    by rewrite Hnone, insert_empty, map_size_singleton.
  - left. unfold return_records, objects_filter, Return_objects. proj. rewrite Hret.
    apply map_filter_insert_not'.
    + cbn. rewrite Hrec. by rewrite bool_decide_false.
    + intros y Hy. by rewrite next_pk_fresh in Hy.
Qed.

(** X17. The return records of a checkout change only by a return that
    files the first one: after any request the records of a checkout
    are the same as before, or there were none and now there is one.
    So a store in which every checkout has at most one return record
    stays so. *)
Theorem return_records_at_most_one globals strftime route request w cid :
  let d' := db (urlpatterns globals strftime route request w).2 in
  (return_records d' cid = return_records (db w) cid
   ∨ (return_records (db w) cid = ∅ ∧ size (return_records d' cid) = 1%nat))
  ∧ ((size (return_records (db w) cid) ≤ 1)%nat → (size (return_records d' cid) ≤ 1)%nat).
Proof.
  cbv zeta.
  assert (Hmain :
    return_records (db (urlpatterns globals strftime route request w).2) cid
    = return_records (db w) cid
    ∨ (return_records (db w) cid = ∅
       ∧ size (return_records (db (urlpatterns globals strftime route request w).2) cid)
         = 1%nat)).
  { destruct route as [k | k | checkout_id | checkout_id | | uid | uid].
    3: { apply (return_records_step checkout_id), return_resource_effect. }
    3: { apply (return_records_step checkout_id), staff_process_return_effect. }
    all: left; apply return_records_same; cbn [urlpatterns]; unfold_views;
      unfold User.is_patron, User.is_staff_user, User.is_admin_user;
      destruct (user request) as [actor|]; explore; done. }
  split; [exact Hmain|]. intros Hle. destruct Hmain as [-> | [_ ->]]; lia.
Qed.

(** ** How the status of a resource moves *)

Lemma status_step_insert d (m : gmap nat Resource.t) k0 r0 s k r r' :
  m !! k0 = Some r0 →
  (k = k0 → status_step d k (Resource.status r0) s) →
  m !! k = Some r →
  <[k0 := Resource.set_status s r0]> m !! k = Some r' →
  status_step d k (Resource.status r) (Resource.status r').
Proof.
  intros Hk0 Hstep Hk. rewrite lookup_insert. case_decide as Heq.
  - intros [= <-]. subst k0. rewrite Hk in Hk0. injection Hk0 as ->. by apply Hstep.
  - rewrite Hk. intros [= <-]. by left.
Qed.

(** X18. The status of a resource moves in three ways only. After any
    request to a writing view the status of a stored resource is as
    before; or it was [AVAILABLE] and is now [CHECKED_OUT]; or it was
    not [AVAILABLE] and is now [RESERVED]; or it is now [AVAILABLE] and
    an [ACTIVE] checkout of this resource was stored before the
    request. No view stores [LOST], and none makes a resource
    [AVAILABLE] that was not on loan. *)
Theorem resource_status_moves globals strftime route request w k r r' :
  resources (db w) !! k = Some r →
  resources (db (urlpatterns globals strftime route request w).2) !! k = Some r' →
  status_step (db w) k (Resource.status r) (Resource.status r').
Proof.
  intros Hk. revert Hk.
  every_path route request; try (by exfalso); intros Hk Hk';
    try (by left; congruence).
  all: refine (status_step_insert (db w) _ _ _ _ _ _ _ _ _ Hk Hk'); [eassumption|].
  all: intros ->; unfold status_step; proj.
  all: first [ by right; left
             | by right; right; left
             | right; right; right; split; [done|]; by eexists _, _ ].
Qed.

(** Alice returns the book: its status moves to [AVAILABLE], and her
    loan was [ACTIVE] before. *)
Lemma resource_status_moves_example :
  let w := at_time (timedelta 3) on_loan in
  let d' := db (urlpatterns views_globals sample_strftime (url_return_resource 1)
                  (as_user alice) w).2 in
  resources d' !! 7%nat = Some (book Resource.STATUS_AVAILABLE)
  ∧ status_step (db w) 7 Resource.STATUS_CHECKED_OUT Resource.STATUS_AVAILABLE.
Proof.
  cbv zeta.
  assert (H : resources
                (db (urlpatterns views_globals sample_strftime (url_return_resource 1)
                       (as_user alice) (at_time (timedelta 3) on_loan)).2) !! 7%nat
              = Some (book Resource.STATUS_AVAILABLE)) by (vm_compute; reflexivity).
  split; [exact H|].
  exact (resource_status_moves views_globals sample_strftime (url_return_resource 1)
           (as_user alice) (at_time (timedelta 3) on_loan) 7%nat
           (book Resource.STATUS_CHECKED_OUT) (book Resource.STATUS_AVAILABLE) eq_refl H).
Defined.

Lemma held_without_loan_same d d' k :
  checkouts d' = checkouts d → resources d' = resources d →
  held_without_loan d k → held_without_loan d' k.
Proof. unfold held_without_loan. intros -> ->. done. Qed.

Lemma held_without_loan_checkout d d' k k0 r0 c :
  resources d !! k0 = Some r0 → Resource.status r0 = Resource.STATUS_AVAILABLE →
  checkouts d' = <[next_pk (checkouts d) := c]> (checkouts d) →
  resources d' = <[k0 := Resource.set_status Resource.STATUS_CHECKED_OUT r0]> (resources d) →
  Checkout.resource c = k0 →
  held_without_loan d k → held_without_loan d' k.
Proof.
  intros Hk0 Hs0 Hc' Hr' Hc [(r & Hk & Hs) Hnone].
  assert (Hne : k0 ≠ k) by (intros ->; congruence).
  split.
  - exists r. by rewrite Hr', lookup_insert_ne.
  - intros cid c0. rewrite Hc', lookup_insert. case_decide.
    + intros [= <-] _. congruence.
    + apply Hnone.
Qed.

Lemma held_without_loan_reserve d d' k k0 r0 :
  resources d !! k0 = Some r0 →
  checkouts d' = checkouts d →
  resources d' = <[k0 := Resource.set_status Resource.STATUS_RESERVED r0]> (resources d) →
  held_without_loan d k → held_without_loan d' k.
Proof.
  intros Hk0 Hc' Hr' [(r & Hk & Hs) Hnone]. split.
  - rewrite Hr', lookup_insert. case_decide; [by eexists | by exists r].
  - by rewrite Hc'.
Qed.

Lemma held_without_loan_return d d' k checkout_id :
  return_effect checkout_id d d' → held_without_loan d k → held_without_loan d' k.
Proof.
  intros [-> | (c & record & Hc & Hs & _ & _ & _ & Hc' & Hr' & _)] Hheld; [done|].
  destruct Hheld as [(r & Hk & Hrs) Hnone].
  assert (Hne : Checkout.resource c ≠ k) by by apply (Hnone checkout_id c).
  split.
  - exists r. destruct Hr' as [-> | (r0 & _ & ->)]; [done|]. by rewrite lookup_insert_ne.
  - intros cid c0. rewrite Hc', lookup_insert. case_decide.
    + by intros [= <-].
    + apply Hnone.
Qed.

Lemma held_without_loan_request globals strftime route request w k :
  held_without_loan (db w) k →
  held_without_loan (db (urlpatterns globals strftime route request w).2) k.
Proof.
  intros Hheld. destruct route as [k0 | k0 | cid | cid | | uid | uid].
  3: { apply (held_without_loan_return (db w) _ k cid);
         [apply return_resource_effect | done]. }
  3: { apply (held_without_loan_return (db w) _ k cid);
         [apply staff_process_return_effect | done]. }
  all: cbn [urlpatterns]; unfold_views;
    unfold User.is_patron, User.is_staff_user, User.is_admin_user;
    destruct (user request) as [actor|]; explore; try done.
  - by eapply (held_without_loan_checkout (db w)).
  - by eapply (held_without_loan_reserve (db w)).
Qed.

Lemma checkout_resource_unavailable_db globals strftime request k r w :
  resources (db w) !! k = Some r →
  Resource.status r ≠ Resource.STATUS_AVAILABLE →
  db (checkout_resource globals strftime request k w).2 = db w.
Proof.
  intros Hk Hs. unfold_views. unfold User.is_patron.
  destruct (user request) as [actor|]; proj; [|done].
  case_bool_decide; proj; [|done].
  rewrite Hk. proj. by rewrite bool_decide_true.
Qed.

(** X19. A resource that is not [AVAILABLE] and has no [ACTIVE]
    checkout (a lost item that was reserved, say) stays that way
    whatever requests follow: no view can make it [AVAILABLE] again, so
    every later checkout request for it, by anyone, leaves the store
    unchanged. *)
Theorem held_without_loan_forever globals strftime w w' k :
  leads_to globals strftime w w' →
  held_without_loan (db w) k →
  held_without_loan (db w') k
  ∧ ∀ request, db (checkout_resource globals strftime request k w').2 = db w'.
Proof.
  intros Hleads Hheld.
  assert (Hheld' : held_without_loan (db w') k).
  { induction Hleads as [w | w w' route request _ IH | w w' w'' _ IH Hdb].
    - done.
    - by apply held_without_loan_request, IH.
    - rewrite Hdb. by apply IH. }
  split; [done|]. intros request.
  destruct Hheld' as [(r & Hk & Hs) _].
  by apply (checkout_resource_unavailable_db globals strftime request k r).
Qed.

(** Alice reserves the lost book; Bob then processes a return and Carol
    promotes Alice: the book is still held, and a checkout by Alice
    changes nothing. *)
Lemma held_without_loan_forever_example :
  let globals := "timedelta" :: views_globals in
  let w := (reserve_resource (as_user alice) 7%nat
              (at_time 0 (library Resource.STATUS_LOST))).2 in
  let w1 := (urlpatterns globals sample_strftime (url_staff_process_return 1)
               (as_user bob) w).2 in
  let w2 := (urlpatterns globals sample_strftime (url_admin_promote_to_staff 1)
               (as_user carol) w1).2 in
  held_without_loan (db w) 7
  ∧ held_without_loan (db w2) 7
  ∧ db (checkout_resource globals sample_strftime (as_user alice) 7%nat w2).2 = db w2.
Proof.
  cbv zeta.
  set (w := (reserve_resource (as_user alice) 7%nat
               (at_time 0 (library Resource.STATUS_LOST))).2).
  assert (Hheld : held_without_loan (db w) 7).
  { split.
    - exists (book Resource.STATUS_RESERVED). split; [vm_compute; reflexivity | discriminate].
    - intros cid c Hc. vm_compute in Hc. discriminate Hc. }
  split; [exact Hheld|].
  destruct (held_without_loan_forever ("timedelta" :: views_globals) sample_strftime w _ 7%nat
              (leads_to_request _ _ _ _ (url_admin_promote_to_staff 1) (as_user carol)
                 (leads_to_request _ _ _ _ (url_staff_process_return 1) (as_user bob)
                    (leads_to_here _ _ w))) Hheld) as [H1 H2].
  split; [exact H1 | exact (H2 (as_user alice))].
Defined.

(** X20. A resource on loan is never shown as [AVAILABLE]. From any
    store in which each resource has at most one [ACTIVE] checkout and
    no resource with an [ACTIVE] checkout is [AVAILABLE], every run of
    requests, one after the other, leads to a store with the same two
    properties; so what is out cannot be lent a second time. This
    holds for the module as it stands and for any binding of its
    global names. *)
Theorem on_loan_stays_unavailable globals strftime w w' :
  leads_to globals strftime w w' →
  at_most_one_active (db w) → active_not_available (db w) →
  at_most_one_active (db w')
  ∧ active_not_available (db w')
  ∧ ∀ k c r, checkouts (db w') !! k = Some c →
      Checkout.status c = Checkout.STATUS_ACTIVE →
      resources (db w') !! Checkout.resource c = Some r →
      Resource.status r = Resource.STATUS_CHECKED_OUT
      ∨ Resource.status r = Resource.STATUS_RESERVED
      ∨ Resource.status r = Resource.STATUS_LOST.
Proof.
  intros Hleads Hone Hactive.
  assert (Hinv : lending_consistent (db w')).
  { induction Hleads as [w | w w' route request _ IH | w w' w'' _ IH Hdb].
    - by split.
    - by apply urlpatterns_consistent, IH.
    - rewrite Hdb. by apply IH. }
  destruct Hinv as [Hone' Hactive']. split_and!; [done | done |].
  intros k c r Hc Hs Hr. pose proof (Hactive' k c r Hc Hs Hr) as Hna.
  destruct (Resource.status r); auto. done.
Qed.

(** The module as it stands: Alice has the book; Bob reserves it and
    Alice asks to check it out again. The loan is still [ACTIVE], the
    book is stored as [RESERVED], and the store is as the property
    says. *)
Lemma on_loan_stays_unavailable_example :
  let w := at_time 0 on_loan in
  let w1 := (urlpatterns views_globals sample_strftime (url_reserve_resource 7)
               (as_user bob) w).2 in
  let w2 := (urlpatterns views_globals sample_strftime (url_checkout_resource 7)
               (as_user alice) w1).2 in
  at_most_one_active (db w) ∧ active_not_available (db w)
  ∧ Checkout.status <$> checkouts (db w2) !! 1%nat = Some Checkout.STATUS_ACTIVE
  ∧ Resource.status <$> resources (db w2) !! 7%nat = Some Resource.STATUS_RESERVED
  ∧ at_most_one_active (db w2) ∧ active_not_available (db w2).
Proof.
  cbv zeta.
  set (w := at_time 0 on_loan).
  assert (Hkey : ∀ k c, checkouts (db w) !! k = Some c
                        → k = 1%nat ∧ c = loan Checkout.STATUS_ACTIVE).
  { intros k c H. unfold w, at_time, on_loan, library in H. proj_in H.
    apply lookup_insert_Some in H as [[<- <-] | [_ H]]; [done|].
    rewrite lookup_empty in H. discriminate H. }
  assert (Hone : at_most_one_active (db w)).
  { intros k1 k2 c1 c2 H1 H2 _ _ _.
    destruct (Hkey k1 c1 H1) as [-> _], (Hkey k2 c2 H2) as [-> _]. reflexivity. }
  assert (Hactive : active_not_available (db w)).
  { intros k c r Hc _ Hr. destruct (Hkey k c Hc) as [_ ->].
    vm_compute in Hr. injection Hr as <-. discriminate. }
  destruct (on_loan_stays_unavailable views_globals sample_strftime w _
              (leads_to_request _ _ _ _ (url_checkout_resource 7) (as_user alice)
                 (leads_to_request _ _ _ _ (url_reserve_resource 7) (as_user bob)
                    (leads_to_here _ _ w))) Hone Hactive) as (Hone' & Hactive' & _).
  split_and!; [exact Hone | exact Hactive | vm_compute; reflexivity
              | vm_compute; reflexivity | exact Hone' | exact Hactive'].
Defined.

(** ** More on fines *)

(** X21. [calculate_overdue_fine] never raises, never writes and never
    gives a negative amount, whatever the clock does between its two
    readings, forwards or backwards; for a checkout that is not
    [ACTIVE] it gives 0 without reading the clock; and when the clock
    is past the due date at the first reading and not past it at the
    second, [max(0, days_overdue)] gives 0. *)
Theorem calculate_overdue_fine_nonneg c w :
  ∃ fine w',
    calculate_overdue_fine c w = (Returned fine, w')
    ∧ 0 ≤ fine
    ∧ db w' = db w ∧ flash w' = flash w
    ∧ (Checkout.status c ≠ Checkout.STATUS_ACTIVE → fine = 0 ∧ w' = w)
    ∧ (Checkout.status c = Checkout.STATUS_ACTIVE →
       Checkout.due_date c < clock w + hd 0 (ticks w) →
       clock w + hd 0 (ticks w) + hd 0 (tail (ticks w)) ≤ Checkout.due_date c →
       fine = 0 ∧ clock w' = clock w + hd 0 (ticks w) + hd 0 (tail (ticks w))).
Proof.
  unfold_views. case_bool_decide as Hs; proj.
  - case_bool_decide as Hlate; proj; eexists _, _; (split; [done|]);
      split_and!; try done; try lia.
    intros _ _ Hback. split; [|done]. unfold timedelta_days.
    pose proof microseconds_per_day_pos as Hpos.
    assert ((clock w + hd 0 (ticks w) + hd 0 (tail (ticks w)) - Checkout.due_date c)
            / microseconds_per_day ≤ 0); [|lia].
    apply Z.div_le_upper_bound; lia.
  - eexists _, _. split; [done|]. split_and!; done.
Qed.

(** Alice's loan, due after 14 days. The clock reads 14 days and a
    microsecond when [is_overdue] asks, and is set back by two days
    before the second reading: the difference is -2 days, and the fine
    is 0, not -2. *)
Lemma calculate_overdue_fine_nonneg_example :
  let c := loan Checkout.STATUS_ACTIVE in
  let w := {| db := on_loan; clock := timedelta 14 + 1; ticks := [0; - timedelta 2];
              flash := [] |} in
  (is_overdue c w).1 = Returned true
  ∧ timedelta_days (clock (calculate_overdue_fine c w).2 - Checkout.due_date c) = -2
  ∧ (calculate_overdue_fine c w).1 = Returned 0
  ∧ ∃ fine w',
      calculate_overdue_fine c w = (Returned fine, w')
      ∧ 0 ≤ fine
      ∧ db w' = db w ∧ flash w' = flash w
      ∧ (Checkout.status c ≠ Checkout.STATUS_ACTIVE → fine = 0 ∧ w' = w)
      ∧ (Checkout.status c = Checkout.STATUS_ACTIVE →
         Checkout.due_date c < clock w + hd 0 (ticks w) →
         clock w + hd 0 (ticks w) + hd 0 (tail (ticks w)) ≤ Checkout.due_date c →
         fine = 0 ∧ clock w' = clock w + hd 0 (ticks w) + hd 0 (tail (ticks w))).
Proof.
  cbv zeta. split_and!; [vm_compute; reflexivity | vm_compute; reflexivity
                        | vm_compute; reflexivity |].
  exact (calculate_overdue_fine_nonneg (loan Checkout.STATUS_ACTIVE)
           {| db := on_loan; clock := timedelta 14 + 1; ticks := [0; - timedelta 2];
              flash := [] |}).
Defined.

Lemma whole_days_mono a b : 0 ≤ a → a ≤ b → 0 ≤ whole_days a ≤ whole_days b.
Proof.
  intros Ha Hab. unfold whole_days. pose proof microseconds_per_day_pos.
  rewrite !Z.quot_div_nonneg by lia. split.
  - apply Z.div_pos; lia.
  - apply Z.div_le_mono; lia.
Qed.

(** X22. For an [ACTIVE] checkout the fine of a return served at one
    instant grows with that instant and is never more than the
    lateness counted in days: a later return never costs less, and
    [fine] days have fully passed since the due date. *)
Theorem calculate_overdue_fine_monotone c d f now1 now2 :
  Checkout.status c = Checkout.STATUS_ACTIVE →
  now1 ≤ now2 →
  ∃ fine1 fine2,
    (calculate_overdue_fine c {| db := d; clock := now1; ticks := []; flash := f |}).1
    = Returned fine1
    ∧ (calculate_overdue_fine c {| db := d; clock := now2; ticks := []; flash := f |}).1
      = Returned fine2
    ∧ fine1 ≤ fine2
    ∧ (0 < fine2 → Checkout.due_date c + timedelta fine2 ≤ now2).
Proof.
  intros Hs Hle. exists (fine_at now1 c), (fine_at now2 c).
  rewrite !calculate_overdue_fine_served_at by done. split_and!; [done | done | |].
  - unfold fine_at. repeat case_bool_decide; try lia.
    + destruct (whole_days_mono 0 (now2 - Checkout.due_date c)); lia.
    + destruct (whole_days_mono (now1 - Checkout.due_date c)
                  (now2 - Checkout.due_date c)); lia.
  - unfold fine_at, timedelta, whole_days. pose proof microseconds_per_day_pos as Hpos.
    case_bool_decide; [lia|]. intros _.
    rewrite Z.quot_div_nonneg by lia. rewrite Z.mul_1_r.
    pose proof (Z.mul_div_le (now2 - Checkout.due_date c) microseconds_per_day Hpos).
    lia.
Qed.

(** Alice's loan: 6 at day 20, 7 and a bit later 7 still at day 21. *)
Lemma calculate_overdue_fine_monotone_example :
  (calculate_overdue_fine (loan Checkout.STATUS_ACTIVE) (at_time (timedelta 20) on_loan)).1
  = Returned 6
  ∧ (calculate_overdue_fine (loan Checkout.STATUS_ACTIVE)
       (at_time (timedelta 21 + 5) on_loan)).1
    = Returned 7
  ∧ ∃ fine1 fine2,
      (calculate_overdue_fine (loan Checkout.STATUS_ACTIVE)
         (at_time (timedelta 20) on_loan)).1 = Returned fine1
      ∧ (calculate_overdue_fine (loan Checkout.STATUS_ACTIVE)
           (at_time (timedelta 21 + 5) on_loan)).1 = Returned fine2
      ∧ fine1 ≤ fine2
      ∧ (0 < fine2
         → Checkout.due_date (loan Checkout.STATUS_ACTIVE) + timedelta fine2
           ≤ timedelta 21 + 5).
Proof.
  split; [vm_compute; reflexivity|]. split; [vm_compute; reflexivity|].
  apply (calculate_overdue_fine_monotone (loan Checkout.STATUS_ACTIVE) on_loan []
           (timedelta 20) (timedelta 21 + 5)); [reflexivity | vm_compute; discriminate].
Defined.

(** ** The views that render *)

(** X23. The four views that render write nothing: the patron
    dashboard, the resource page and the staff list leave the world as
    it is, and the staff dashboard leaves the store and the messages as
    they are (it reads the clock once). *)
Theorem pages_read_only request k w :
  (patron_dashboard request () w).2 = w
  ∧ (resource_detail request k w).2 = w
  ∧ (admin_staff_list request () w).2 = w
  ∧ db (staff_dashboard request () w).2 = db w
  ∧ flash (staff_dashboard request () w).2 = flash w.
Proof.
  split_and!; unfold_pages; destruct (user request) as [actor|]; proj; try done.
  - by destruct (User.is_patron (row actor)).
  - by destruct (resources (db w) !! k).
  - by destruct (User.is_admin_user (row actor)).
  - by destruct (User.is_staff_user (row actor)).
  - by destruct (User.is_staff_user (row actor)).
Qed.

#[local] Instance by_pk_total {A} : Total (@by_pk A).
Proof. intros a b. unfold by_pk. lia. Qed.

#[local] Instance by_pk_trans {A} : Transitive (@by_pk A).
Proof. intros a b c. unfold by_pk. lia. Qed.

Lemma first_Some {A} (m : gmap nat A) o :
  first m = Some o →
  m !! pk o = Some (row o) ∧ ∀ k, is_Some (m !! k) → (pk o ≤ k)%nat.
Proof.
  unfold first. intros Hfirst.
  destruct (merge_sort by_pk (map_to_list m)) as [|[k0 r0] rest] eqn:Hsort; [done|].
  cbn in Hfirst. injection Hfirst as <-. cbn [pk row].
  assert (Hperm : (k0, r0) :: rest ≡ₚ map_to_list m).
  { rewrite <- Hsort. apply merge_sort_Permutation. }
  assert (Hsorted : StronglySorted by_pk ((k0, r0) :: rest)).
  { rewrite <- Hsort. apply StronglySorted_merge_sort; apply _. }
  split.
  - apply elem_of_map_to_list. rewrite <- Hperm. left.
  - intros k [r Hk]. apply elem_of_map_to_list in Hk. rewrite <- Hperm in Hk.
    apply StronglySorted_cons in Hsorted as [Hall _].
    apply elem_of_cons in Hk as [[= -> ->] | Hk]; [done|].
    rewrite Forall_forall in Hall. apply (Hall (k, r) Hk).
Qed.

Lemma first_None {A} (m : gmap nat A) : first m = None ↔ m = ∅.
Proof.
  unfold first. rewrite fmap_None, head_None. split.
  - intros Hnil. apply map_to_list_empty_iff, Permutation_nil_r.
    rewrite <- Hnil. symmetry. apply merge_sort_Permutation.
  - intros ->. by rewrite map_to_list_empty.
Qed.

(** The [ACTIVE] checkouts of one resource. *)
Lemma active_of_lookup d k cid c :
  objects_filter Checkout_objects
    (λ c, bool_decide (Checkout.resource c = k)
          && bool_decide (Checkout.status c = Checkout.STATUS_ACTIVE)) d !! cid = Some c
  ↔ checkouts d !! cid = Some c
    ∧ Checkout.resource c = k ∧ Checkout.status c = Checkout.STATUS_ACTIVE.
Proof.
  unfold objects_filter, Checkout_objects. proj. rewrite map_lookup_filter_Some. cbn.
  rewrite andb_true_iff, !bool_decide_eq_true. tauto.
Qed.

(** X24. For a logged-in user, the resource page answers not-found for
    a resource that is not stored. Otherwise it shows the resource and
    a current checkout that is an [ACTIVE] checkout of this resource,
    the one with the smallest key if there are several; it shows none
    exactly when the resource has no [ACTIVE] checkout; and in a store
    with at most one [ACTIVE] checkout per resource it shows that
    one. *)
Theorem resource_detail_current_checkout w request actor k :
  user request = Some actor →
  (resources (db w) !! k = None → resource_detail request k w = (Raised Http404, w))
  ∧ ∀ r, resources (db w) !! k = Some r →
    ∃ current,
      resource_detail request k w
      = (Returned (render "library/resource_detail.html"
                     {| ResourceDetail.resource := Obj k r;
                        ResourceDetail.current_checkout := current |}), w)
      ∧ (∀ o, current = Some o →
           checkouts (db w) !! pk o = Some (row o)
           ∧ Checkout.status (row o) = Checkout.STATUS_ACTIVE
           ∧ Checkout.resource (row o) = k
           ∧ ∀ cid c, checkouts (db w) !! cid = Some c →
               Checkout.status c = Checkout.STATUS_ACTIVE → Checkout.resource c = k →
               (pk o ≤ cid)%nat)
      ∧ (current = None ↔
         ∀ cid c, checkouts (db w) !! cid = Some c →
           Checkout.status c = Checkout.STATUS_ACTIVE → Checkout.resource c ≠ k)
      ∧ (at_most_one_active (db w) →
         ∀ cid c, checkouts (db w) !! cid = Some c →
           Checkout.status c = Checkout.STATUS_ACTIVE → Checkout.resource c = k →
           current = Some (Obj cid c)).
Proof.
  intros Hu. split.
  - intros Hk. unfold_pages. proj. rewrite Hu. proj. by rewrite Hk.
  - intros r Hk.
    set (active := objects_filter Checkout_objects
                     (λ c, bool_decide (Checkout.resource c = k)
                           && bool_decide (Checkout.status c = Checkout.STATUS_ACTIVE))
                     (db w)).
    assert (Hsome : ∀ o, first active = Some o →
              checkouts (db w) !! pk o = Some (row o)
              ∧ Checkout.status (row o) = Checkout.STATUS_ACTIVE
              ∧ Checkout.resource (row o) = k
              ∧ ∀ cid c, checkouts (db w) !! cid = Some c →
                  Checkout.status c = Checkout.STATUS_ACTIVE → Checkout.resource c = k →
                  (pk o ≤ cid)%nat).
    { intros o Ho. apply first_Some in Ho as [Hlook Hmin].
      apply active_of_lookup in Hlook as (Hc & Hres & Hs). split_and!; try done.
      intros cid c Hc' Hs' Hres'. apply Hmin. exists c. by apply active_of_lookup. }
    exists (first active). split_and!.
    + unfold_pages. proj. rewrite Hu. proj. by rewrite Hk.
    + exact Hsome.
    + rewrite first_None. split.
      * intros Hempty cid c Hc Hs Hres.
        assert (Hin : active !! cid = Some c) by by apply active_of_lookup.
        by rewrite Hempty, lookup_empty in Hin.
      * intros Hnone. apply map_empty. intros cid.
        destruct (active !! cid) as [c|] eqn:Hin; [|done].
        apply active_of_lookup in Hin as (Hc & Hres & Hs). by destruct (Hnone cid c).
    + intros Hone cid c Hc Hs Hres.
      destruct (first active) as [o|] eqn:Hfirst.
      * destruct (Hsome o eq_refl) as (Hco & Hso & Hro & _).
        assert (pk o = cid) by (apply (Hone (pk o) cid (row o) c); congruence).
        destruct o as [ko ro]. cbn in *. congruence.
      * apply first_None in Hfirst.
        assert (Hin : active !! cid = Some c) by by apply active_of_lookup.
        by rewrite Hfirst, lookup_empty in Hin.
Qed.

(** Bob looks at the book while Alice has it. *)
Lemma resource_detail_current_checkout_example :
  resource_detail (as_user bob) 7%nat (at_time 0 on_loan)
  = (Returned (render "library/resource_detail.html"
                 {| ResourceDetail.resource := Obj 7 (book Resource.STATUS_CHECKED_OUT);
                    ResourceDetail.current_checkout :=
                      Some (Obj 1 (loan Checkout.STATUS_ACTIVE)) |}), at_time 0 on_loan)
  ∧ resource_detail (as_user bob) 8%nat (at_time 0 on_loan)
    = (Raised Http404, at_time 0 on_loan).
Proof.
  destruct (resource_detail_current_checkout (at_time 0 on_loan) (as_user bob) bob 7%nat
              eq_refl) as [_ Hfound].
  destruct (Hfound (book Resource.STATUS_CHECKED_OUT) eq_refl)
    as (current & Hpage & _ & _ & Hone).
  destruct (resource_detail_current_checkout (at_time 0 on_loan) (as_user bob) bob 8%nat
              eq_refl) as [Hmissing _].
  split; [|exact (Hmissing eq_refl)].
  assert (Hkey : ∀ k c, checkouts on_loan !! k = Some c → k = 1%nat).
  { intros k c H. unfold on_loan, library in H. proj_in H.
    apply lookup_insert_Some in H as [[<- _] | [_ H]]; [done|].
    rewrite lookup_empty in H. discriminate H. }
  assert (Hamo : at_most_one_active (db (at_time 0 on_loan))).
  { intros k1 k2 c1 c2 H1 H2 _ _ _. rewrite (Hkey k1 c1 H1), (Hkey k2 c2 H2). reflexivity. }
  rewrite Hpage.
  rewrite (Hone Hamo 1%nat (loan Checkout.STATUS_ACTIVE) eq_refl eq_refl eq_refl).
  reflexivity.
Defined.




(** X26. An admin has no dashboard: the patron dashboard sends anyone
    who is not a patron on to the staff dashboard, and the staff
    dashboard sends anyone whose role is not [STAFF], an admin
    included, to the login page. A staff member sent on from the patron
    dashboard does get the staff dashboard. *)
Theorem admin_has_no_dashboard w request actor :
  user request = Some actor →
  (User.role (row actor) ≠ User.ROLE_PATRON →
     patron_dashboard request () w
     = (Returned (respond (redirect "staff_dashboard" None)), w))
  ∧ (User.role (row actor) ≠ User.ROLE_STAFF →
     staff_dashboard request () w = (Returned (respond redirect_to_login), w))
  ∧ (User.role (row actor) = User.ROLE_STAFF →
     ∃ context w',
       staff_dashboard request () w
       = (Returned (render "library/staff_dashboard.html" context), w')).
Proof.
  intros Hu. split_and!; intros Hrole; unfold_pages; proj; rewrite Hu; proj.
  - unfold User.is_patron. by rewrite bool_decide_false.
  - unfold User.is_staff_user. by rewrite bool_decide_false.
  - unfold User.is_staff_user. rewrite bool_decide_true by done. by eexists _, _.
Qed.

Lemma admin_has_no_dashboard_example :
  patron_dashboard (as_user carol) () (at_time 0 on_loan)
  = (Returned (respond (redirect "staff_dashboard" None)), at_time 0 on_loan)
  ∧ staff_dashboard (as_user carol) () (at_time 0 on_loan)
    = (Returned (respond redirect_to_login), at_time 0 on_loan).
Proof.
  destruct (admin_has_no_dashboard (at_time 0 on_loan) (as_user carol) carol eq_refl)
    as (Hpatron & Hstaff & _).
  split; [apply Hpatron | apply Hstaff]; discriminate.
Defined.

(** X27. For an admin the staff list shows exactly the stored users
    with role [STAFF], active or not: a staff member who has been
    deactivated is still on the list. *)
Theorem admin_staff_list_members w request actor :
  user request = Some actor →
  User.role (row actor) = User.ROLE_ADMIN →
  ∃ members,
    admin_staff_list request () w
    = (Returned (render "library/admin_staff_list.html" members), w)
    ∧ (∀ uid u, members !! uid = Some u ↔
         users (db w) !! uid = Some u ∧ User.role u = User.ROLE_STAFF)
    ∧ (∀ uid u w0 request0 actor0,
         user request0 = Some actor0 → User.role (row actor0) = User.ROLE_ADMIN →
         users (db w0) !! uid = Some u → User.role u = User.ROLE_STAFF →
         db w = db (admin_deactivate_staff request0 uid w0).2 →
         members !! uid = Some (User.set_is_active false u)).
Proof.
  intros Hu Hrole.
  assert (Hfilter : ∀ uid u,
    objects_filter User_objects (λ u, bool_decide (User.role u = User.ROLE_STAFF)) (db w)
      !! uid = Some u
    ↔ users (db w) !! uid = Some u ∧ User.role u = User.ROLE_STAFF).
  { intros uid u. unfold objects_filter, User_objects. proj.
    rewrite map_lookup_filter_Some. cbn. rewrite bool_decide_eq_true. tauto. }
  exists (objects_filter User_objects (λ u, bool_decide (User.role u = User.ROLE_STAFF))
            (db w)).
  split_and!.
  - unfold_pages. proj. rewrite Hu. proj.
    unfold User.is_admin_user. rewrite Hrole, bool_decide_true by done. proj. done.
  - exact Hfilter.
  - intros uid u w0 request0 actor0 Hu0 Hrole0 Hlook Hstaff Hdb.
    apply Hfilter. rewrite Hdb.
    rewrite (admin_deactivate_staff_db w0 request0 actor0 uid u Hu0 Hrole0 Hlook Hstaff).
    proj. rewrite lookup_insert_eq. by rewrite Hstaff.
Qed.

(** Carol deactivates Bob and opens the staff list: Bob is on it. *)
Lemma admin_staff_list_members_example :
  let w := (admin_deactivate_staff (as_user carol) 2%nat (at_time 0 on_loan)).2 in
  ∃ members,
    admin_staff_list (as_user carol) () w
    = (Returned (render "library/admin_staff_list.html" members), w)
    ∧ members !! 2%nat = Some (User.set_is_active false (row bob))
    ∧ members !! 1%nat = None.
Proof.
  cbv zeta.
  destruct (admin_staff_list_members
              (admin_deactivate_staff (as_user carol) 2%nat (at_time 0 on_loan)).2
              (as_user carol) carol eq_refl eq_refl) as (members & Hpage & Hiff & Hstill).
  exists members. split_and!.
  - exact Hpage.
  - exact (Hstill 2%nat (row bob) (at_time 0 on_loan) (as_user carol) carol
             eq_refl eq_refl eq_refl eq_refl eq_refl).
  - apply eq_None_not_Some. intros [u Hu]. apply Hiff in Hu as [Hu Hrole].
    vm_compute in Hu. injection Hu as <-. discriminate Hrole.
Defined.

#[local] Instance by_created_at_desc_total : Total by_created_at_desc.
Proof. intros a b. unfold by_created_at_desc. lia. Qed.

#[local] Instance by_created_at_desc_trans : Transitive by_created_at_desc.
Proof. intros a b c. unfold by_created_at_desc. lia. Qed.

(** X28. For a patron the dashboard shows: the patron's own [ACTIVE]
    checkouts, all of them; the patron's own reservations whatever
    their status except [CANCELLED] (expired ones stay on show); and at
    most 10 of the patron's own notifications, newest first, such that
    a notification left out is not newer than any one shown. *)
Theorem patron_dashboard_contents w request patron :
  user request = Some patron →
  User.role (row patron) = User.ROLE_PATRON →
  ∃ context,
    patron_dashboard request () w
    = (Returned (render "library/dashboard.html" context), w)
    ∧ (∀ cid c, Dashboard.active_checkouts context !! cid = Some c ↔
         checkouts (db w) !! cid = Some c
         ∧ Checkout.patron c = pk patron
         ∧ Checkout.status c = Checkout.STATUS_ACTIVE)
    ∧ (∀ rid r, Dashboard.reservations context !! rid = Some r ↔
         reservations (db w) !! rid = Some r
         ∧ Reservation.patron r = pk patron
         ∧ Reservation.status r ≠ Reservation.STATUS_CANCELLED)
    ∧ (length (Dashboard.notifications context) ≤ 10)%nat
    ∧ StronglySorted by_created_at_desc (Dashboard.notifications context)
    ∧ (∀ nid n, (nid, n) ∈ Dashboard.notifications context →
         notifications (db w) !! nid = Some n ∧ Notification.user n = pk patron)
    ∧ (∀ nid n, notifications (db w) !! nid = Some n →
         Notification.user n = pk patron →
         (nid, n) ∈ Dashboard.notifications context
         ∨ ∀ x, x ∈ Dashboard.notifications context →
             Notification.created_at n ≤ Notification.created_at x.2).
Proof.
  intros Hu Hrole.
  set (own := objects_filter Notification_objects
                (λ x, bool_decide (Notification.user x = pk patron)) (db w)).
  assert (Hown : ∀ nid n, own !! nid = Some n ↔
            notifications (db w) !! nid = Some n ∧ Notification.user n = pk patron).
  { intros nid n. unfold own, objects_filter, Notification_objects. proj.
    rewrite map_lookup_filter_Some. cbn. rewrite bool_decide_eq_true. tauto. }
  set (sorted := merge_sort by_created_at_desc (map_to_list own)).
  assert (Hperm : sorted ≡ₚ map_to_list own) by apply merge_sort_Permutation.
  assert (Hsorted : StronglySorted by_created_at_desc (take 10 sorted ++ drop 10 sorted)).
  { rewrite take_drop. apply StronglySorted_merge_sort; apply _. }
  exists {| Dashboard.active_checkouts :=
              objects_filter Checkout_objects
                (λ c, bool_decide (Checkout.patron c = pk patron)
                      && bool_decide (Checkout.status c = Checkout.STATUS_ACTIVE)) (db w);
            Dashboard.reservations :=
              objects_filter Reservation_objects
                (λ r, bool_decide (Reservation.patron r = pk patron)
                      && negb (bool_decide
                                 (Reservation.status r = Reservation.STATUS_CANCELLED)))
                (db w);
            Dashboard.notifications := take 10 sorted |}.
  cbn [Dashboard.active_checkouts Dashboard.reservations Dashboard.notifications].
  split_and!.
  - unfold_pages. proj. rewrite Hu. proj.
    unfold User.is_patron. rewrite Hrole, bool_decide_true by done. proj. done.
  - intros cid c. unfold objects_filter, Checkout_objects. proj.
    rewrite map_lookup_filter_Some. cbn.
    rewrite andb_true_iff, !bool_decide_eq_true. tauto.
  - intros rid r. unfold objects_filter, Reservation_objects. proj.
    rewrite map_lookup_filter_Some. cbn.
    rewrite andb_true_iff, negb_true_iff, bool_decide_eq_true, bool_decide_eq_false. tauto.
  - rewrite length_take. lia.
  - by apply StronglySorted_app_1_l in Hsorted.
  - intros nid n Hin. apply subseteq_take in Hin. rewrite Hperm in Hin.
    apply elem_of_map_to_list in Hin. by apply Hown.
  - intros nid n Hn Huser.
    assert (Hin : (nid, n) ∈ take 10 sorted ++ drop 10 sorted).
    { rewrite take_drop, Hperm. apply elem_of_map_to_list. by apply Hown. }
    apply elem_of_app in Hin as [Hin | Hin]; [by left | right].
    intros x Hx.
    apply (StronglySorted_app_1_elem_of _ _ _ x (nid, n) Hsorted Hx Hin).
Qed.

(** Alice opens her dashboard while she has the book. *)
Lemma patron_dashboard_contents_example :
  ∃ context,
    patron_dashboard (as_user alice) () (at_time 0 on_loan)
    = (Returned (render "library/dashboard.html" context), at_time 0 on_loan)
    ∧ Dashboard.active_checkouts context !! 1%nat = Some (loan Checkout.STATUS_ACTIVE)
    ∧ (length (Dashboard.notifications context) ≤ 10)%nat.
Proof.
  destruct (patron_dashboard_contents (at_time 0 on_loan) (as_user alice) alice
              eq_refl eq_refl) as (context & Hpage & Hactive & _ & Hlen & _).
  exists context. split_and!; [exact Hpage | | exact Hlen].
  apply Hactive. split_and!; reflexivity.
Defined.
